(** * Project Samarth backend: the query parser and the answer generator

    A shallow embedding of [QueryParser] and [AnswerGenerator] of
    [src/app.py], followed by the properties the specification states
    about them.

    Python values are embedded as follows.
    - A [str] is its sequence of Unicode code points ([list N]).
    - What the interpreter's Unicode database decides ([str.lower], the
      regular-expression classes [\d], [\s], [\w], and the value [int]
      gives a decimal digit) is the interface [Unicode].  Every general
      theorem holds for every instance.  The instance [python_latin1]
      tabulates CPython 3 on the code points below 256 and is the one
      concrete runs are evaluated with.
    - An [int] is a [Z]; where the interpreter refuses one that is too
      long ([int] of a text, [list] of a range) the limit is a field of
      the interface [Limits], and the function that meets it has an
      [outcome]: a value or the exception raised.  The memory a list may
      take is such a field too, since it is the machine's and not the
      language's.  [str] of an [int] is taken as total: its limit of
      digits is out of reach of the years [answer_query] hands to a
      handler, which lie within [sys.maxsize] of 2023.
    - A [dict] literal or a JSON-shaped result is a [value]: keys in
      insertion order, looked up with [get].
    - [print] appends a line to the standard output carried by [World]. *)

From Stdlib Require Import List NArith ZArith Bool Lia String Ascii.
From Stdlib Require Import Setoid.
From Stdlib Require Import DecimalString.
Import ListNotations.

Set Implicit Arguments.

(** ** Strings *)

Definition str := list N.

(** The code points of an ASCII literal. *)
Definition lit (s : string) : str :=
  List.map N_of_ascii (list_ascii_of_string s).

Definition nl : str := [10%N].      (* "\n" *)
Definition dquote : str := [34%N].  (* the double quote *)

Fixpoint str_eqb (a b : str) : bool :=
  match a, b with
  | [], [] => true
  | x :: a', y :: b' => N.eqb x y && str_eqb a' b'
  | _, _ => false
  end.

(** [s.startswith(p)] *)
Fixpoint startswith (s p : str) {struct p} : bool :=
  match p, s with
  | [], _ => true
  | x :: p', y :: s' => N.eqb x y && startswith s' p'
  | _ :: _, [] => false
  end.

(** [p in s] for two strings: [p] occurs in [s] as a substring. *)
Fixpoint str_in (p s : str) : bool :=
  startswith s p ||
  match s with
  | [] => false
  | _ :: s' => str_in p s'
  end.

(** [s[i:j]] for [0 <= i <= j]. *)
Definition slice (s : str) (i j : nat) : str := firstn (j - i) (skipn i s).

(** [sep.join(l)] *)
Fixpoint join (sep : str) (l : list str) : str :=
  match l with
  | [] => []
  | [x] => x
  | x :: l' => x ++ sep ++ join sep l'
  end.

(** [str(z)] for an [int]. *)
Definition str_of_int (z : Z) : str :=
  lit (NilZero.string_of_int (Z.to_int z)).

(** [repr(s)] for a string made of printable characters other than the
    quotes and the backslash, which is what the canonical names are. *)
Definition repr_name (s : str) : str := lit "'" ++ s ++ lit "'".

(** [str(l)] for a list, given the [repr] of its elements. *)
Definition str_of_list (A : Type) (repr : A -> str) (l : list A) : str :=
  lit "[" ++ join (lit ", ") (List.map repr l) ++ lit "]".

(** ** The interpreter's Unicode database *)

Class Unicode : Type := {
  str_lower : str -> str;   (* str.lower() *)
  is_digit : N -> bool;     (* \d *)
  is_space : N -> bool;     (* \s *)
  is_word : N -> bool;      (* \w *)
  digit_value : N -> Z      (* int() of one decimal digit *)
}.

Definition in_range (lo hi c : N) : bool := (N.leb lo c && N.leb c hi)%bool.

Definition latin1_lower (c : N) : N :=
  if in_range 65 90 c then (c + 32)%N
  else if in_range 192 222 c && negb (N.eqb c 215) then (c + 32)%N
  else c.

Definition latin1_space (c : N) : bool :=
  in_range 9 13 c || in_range 28 32 c || N.eqb c 133 || N.eqb c 160.

Definition latin1_word (c : N) : bool :=
  in_range 48 57 c || in_range 65 90 c || N.eqb c 95 || in_range 97 122 c
  || N.eqb c 170 || in_range 178 179 c || N.eqb c 181 || in_range 185 186 c
  || in_range 188 190 c || in_range 192 214 c || in_range 216 246 c
  || in_range 248 255 c.

#[global] Instance python_latin1 : Unicode := {
  str_lower := List.map latin1_lower;
  is_digit := in_range 48 57;
  is_space := latin1_space;
  is_word := latin1_word;
  digit_value := fun c => (Z.of_N c - 48)%Z
}.

(** ** Exceptions and the limits of the interpreter

    What a builtin raises is an [exn]; a computation that may raise has an
    [outcome].  The limits behind [int] of a long text and [list] of a
    long range are the interface [Limits]; [cpython_64bit] has the
    defaults of a 64-bit CPython 3.11. *)

Inductive exn : Type :=
  | ValueError                     (* min() or max() of an empty sequence *)
  | IntDigits (limit digits : nat) (* the ValueError of int() on a text of
                                      more digits than the limit *)
  | OverflowError                  (* a range longer than sys.maxsize *)
  | MemoryError.                   (* a list the machine has no room for *)

Inductive outcome (A : Type) : Type :=
  | Return (a : A)
  | Raise (e : exn).
Arguments Return {A} a.
Arguments Raise {A} e.

Definition and_then (A B : Type) (o : outcome A) (f : A -> outcome B)
    : outcome B :=
  match o with
  | Return a => f a
  | Raise e => Raise e
  end.

Notation "'let!' x ':=' o 'in' k" := (and_then o (fun x => k))
  (at level 10, x name, o at level 100, k at level 200).

(** [[f(x) for x in l]] where [f] may raise: the first exception ends
    it. *)
Fixpoint map_outcome (A B : Type) (f : A -> outcome B) (l : list A)
    : outcome (list B) :=
  match l with
  | [] => Return []
  | x :: l' =>
      let! y := f x in
      let! ys := map_outcome f l' in
      Return (y :: ys)
  end.

Class Limits : Type := {
  maxsize : Z;                  (* sys.maxsize *)
  int_max_str_digits : nat;     (* sys.get_int_max_str_digits(); 0: none *)
  list_capacity : Z;            (* the longest list there is room for *)
  int_max_str_digits_valid :    (* what sys.set_int_max_str_digits allows *)
    int_max_str_digits = 0%nat \/ (640 <= int_max_str_digits)%nat
}.

#[global] Instance cpython_64bit : Limits := {
  maxsize := 9223372036854775807;
  int_max_str_digits := 4300;
  list_capacity := 4294967296;
  int_max_str_digits_valid :=
    or_intror (proj1 (Nat.leb_le 640 4300) eq_refl)
}.

(** ** Python's [re], for the patterns the parser uses

    A pattern is a sequence of nodes; a quantifier applies to a
    one-character node.  Matching is by backtracking, greedy quantifiers
    trying the longer match first, as [re] does. *)

Inductive atom : Type :=
  | Chr (c : N)   (* a literal character *)
  | Digit         (* \d *)
  | Space.        (* \s *)

Inductive node : Type :=
  | One (a : atom)     (* a *)
  | Many1 (a : atom)   (* a+ *)
  | Maybe (a : atom)   (* a? *)
  | WordB              (* \b *)
  | Open               (* ( of group 1 *)
  | Close.             (* ) of group 1 *)

Definition regex := list node.

(** The nodes of a literal text. *)
Definition text (s : string) : regex := List.map (fun c => One (Chr c)) (lit s).

(** A match: the subject string, the span of the match and the span of
    group 1. *)
Record Match : Type := {
  m_string : str;
  m_span : nat * nat;
  m_span1 : nat * nat
}.

(** [m.group(1)] *)
Definition group1 (m : Match) : str :=
  slice (m_string m) (fst (m_span1 m)) (snd (m_span1 m)).

Section Regex.
Context {U : Unicode}.

Definition atom_ok (a : atom) (c : N) : bool :=
  match a with
  | Chr d => N.eqb c d
  | Digit => is_digit c
  | Space => is_space c
  end.

Definition word_before (prev : option N) : bool :=
  match prev with Some c => is_word c | None => false end.

Definition word_after (s : str) : bool :=
  match s with c :: _ => is_word c | [] => false end.

(** [a+] followed by the continuation [k]: one more [a] if that leads to
    a match, otherwise the continuation. [prev] is the character before
    the position [pos], [s] the text from [pos] on. *)
Fixpoint many1 (X : Type) (a : atom) (k : option N -> str -> nat -> option X)
    (prev : option N) (s : str) (pos : nat) : option X :=
  match s with
  | c :: s' =>
      if atom_ok a c then
        match many1 a k (Some c) s' (S pos) with
        | Some r => Some r
        | None => k (Some c) s' (S pos)
        end
      else None
  | [] => None
  end.

(** One character matching [a], then the continuation [k]. *)
Definition one (X : Type) (a : atom) (k : option N -> str -> nat -> option X)
    (s : str) (pos : nat) : option X :=
  match s with
  | c :: s' => if atom_ok a c then k (Some c) s' (S pos) else None
  | [] => None
  end.

(** Matches [r] at position [pos]; [g] is the span of group 1 so far.
    Returns the end of the match and the span of group 1. *)
Fixpoint run (r : regex) (prev : option N) (s : str) (pos : nat)
    (g : nat * nat) : option (nat * (nat * nat)) :=
  match r with
  | [] => Some (pos, g)
  | One a :: r' => one a (fun p t n => run r' p t n g) s pos
  | Many1 a :: r' => many1 a (fun p t n => run r' p t n g) prev s pos
  | Maybe a :: r' =>
      match one a (fun p t n => run r' p t n g) s pos with
      | Some x => Some x
      | None => run r' prev s pos g
      end
  | WordB :: r' =>
      if xorb (word_before prev) (word_after s) then run r' prev s pos g
      else None
  | Open :: r' => run r' prev s pos (pos, snd g)
  | Close :: r' => run r' prev s pos (fst g, pos)
  end.

(** The leftmost match at or after position [i]. *)
Fixpoint search_from (r : regex) (subject : str) (prev : option N)
    (s : str) (i : nat) : option Match :=
  match run r prev s i (i, i) with
  | Some (e, g) =>
      Some {| m_string := subject; m_span := (i, e); m_span1 := g |}
  | None =>
      match s with
      | [] => None
      | c :: s' => search_from r subject (Some c) s' (S i)
      end
  end.

(** [re.search(r, s)] *)
Definition re_search (r : regex) (s : str) : option Match :=
  search_from r s None s 0.

(** The matches from position [i] on, left to right, none overlapping
    another: [skip] characters still belong to the previous match. *)
Fixpoint findall_from (r : regex) (subject : str) (prev : option N)
    (s : str) (i skip : nat) : list Match :=
  match skip with
  | S k =>
      match s with
      | [] => []
      | c :: s' => findall_from r subject (Some c) s' (S i) k
      end
  | O =>
      match run r prev s i (i, i) with
      | Some (e, g) =>
          {| m_string := subject; m_span := (i, e); m_span1 := g |} ::
          match s with
          | [] => []
          | c :: s' => findall_from r subject (Some c) s' (S i) (e - i - 1)
          end
      | None =>
          match s with
          | [] => []
          | c :: s' => findall_from r subject (Some c) s' (S i) 0
          end
      end
  end.

(** [re.findall(r, s)] for a pattern with one group: the texts of
    group 1. *)
Definition re_findall (r : regex) (s : str) : list str :=
  List.map group1 (findall_from r s None s 0 0).

(** [int(s)] for a string of decimal digits. *)
Definition int_of_str (s : str) : Z :=
  fold_left (fun acc c => (10 * acc + digit_value c)%Z) s 0%Z.
End Regex.

(** [range(a, b)] *)
Definition range (a b : Z) : list Z :=
  List.map (fun i => (a + Z.of_nat i)%Z) (seq 0 (Z.to_nat (b - a))).

(** ** QueryParser *)

Definition STATES : list str := List.map lit [
  "Punjab"; "Haryana"; "Uttar Pradesh"; "Madhya Pradesh"; "Bihar";
  "West Bengal"; "Gujarat"; "Maharashtra"; "Karnataka"; "Tamil Nadu";
  "Andhra Pradesh"; "Telangana"; "Rajasthan"; "Odisha"; "Chhattisgarh";
  "Jharkhand"; "Assam"; "Kerala"; "Himachal Pradesh"; "Uttarakhand"
]%string.

Definition CROPS : list str := List.map lit [
  "Rice"; "Wheat"; "Maize"; "Bajra"; "Jowar"; "Ragi"; "Barley";
  "Cotton"; "Jute"; "Sugarcane"; "Groundnut"; "Soybean"; "Sunflower";
  "Mustard"; "Coconut"; "Tea"; "Coffee"; "Rubber"; "Potato"; "Onion"
]%string.

(** [r'\b(20\d{2})\b'] *)
Definition year_re : regex :=
  [WordB; Open] ++ text "20" ++ [One Digit; One Digit] ++ [Close; WordB].

(** [r'last\s+(\d+)\s+years?'] *)
Definition last_re : regex :=
  text "last" ++ [Many1 Space; Open; Many1 Digit; Close; Many1 Space]
  ++ text "year" ++ [Maybe (Chr 115)].

Definition fallback_years : list Z := [2020; 2021; 2022; 2023]%Z.

Section QueryParser.
Context {U : Unicode} {L : Limits}.

(** The loop of [extract_states] and [extract_crops]: the names of
    [names], in order, whose lower-cased form is in [query_lower]. *)
Fixpoint collect (names : list str) (query_lower : str) (found : list str)
    : list str :=
  match names with
  | [] => found
  | name :: rest =>
      if str_in (str_lower name) query_lower
      then collect rest query_lower (found ++ [name])
      else collect rest query_lower found
  end.

Definition extract_states (query : str) : list str :=
  let query_lower := str_lower query in
  collect STATES query_lower [].

Definition extract_crops (query : str) : list str :=
  let query_lower := str_lower query in
  collect CROPS query_lower [].

(** [int(s)] for a string of decimal digits: a text of more digits than
    the limit is refused. *)
Definition py_int (s : str) : outcome Z :=
  if negb (int_max_str_digits =? 0)%nat
     && (int_max_str_digits <? List.length s)%nat
  then Raise (IntDigits int_max_str_digits (List.length s))
  else Return (int_of_str s).

(** [list(range(a, b))]: the length must fit [sys.maxsize], and the list
    the memory. *)
Definition list_range (a b : Z) : outcome (list Z) :=
  let n := Z.max 0 (b - a) in
  if (maxsize <? n)%Z then Raise OverflowError
  else if (list_capacity <? n)%Z then Raise MemoryError
  else Return (range a b).

(** The list [years] holds before the final default: the explicit years,
    replaced by the range when "last N years" matches. *)
Definition years_found (query : str) : outcome (list Z) :=
  let! years := map_outcome py_int (re_findall year_re query) in
  let last_match := re_search last_re (str_lower query) in
  match last_match with
  | Some m =>
      let! n := py_int (group1 m) in
      let current_year := 2023%Z in
      list_range (current_year - n + 1) (current_year + 1)
  | None => Return years
  end.

Definition extract_years (query : str) : outcome (list Z) :=
  let! years := years_found query in
  Return match years with
         | [] => fallback_years
         | _ :: _ => years
         end.

Definition classify_query (query : str) : str :=
  let query_lower := str_lower query in
  if str_in (lit "compare") query_lower && str_in (lit "rainfall") query_lower
  then lit "rainfall_comparison"
  else if str_in (lit "highest") query_lower || str_in (lit "lowest") query_lower
  then lit "production_extremes"
  else if str_in (lit "trend") query_lower
  then lit "trend_analysis"
  else if str_in (lit "rainfall") query_lower
  then lit "rainfall_query"
  else if str_in (lit "production") query_lower || str_in (lit "crop") query_lower
  then lit "production_query"
  else lit "general".
End QueryParser.

(** ** Values and the standard output *)

(** A list, a [dict] (its items in insertion order) or a scalar. *)
#[local] Set Warnings "-register-all".
Inductive value : Type :=
  | VStr (s : str)
  | VInt (z : Z)
  | VList (l : list value)
  | VDict (d : list (str * value)).

Definition dict := list (str * value).

(** [d.get(key)] *)
Fixpoint get (key : str) (d : dict) : option value :=
  match d with
  | [] => None
  | (k, v) :: d' => if str_eqb k key then Some v else get key d'
  end.

Definition strs (l : list str) : value := VList (List.map VStr l).
Definition ints (l : list Z) : value := VList (List.map VInt l).

Record World : Type := { stdout : list str }.

(** A computation that may print and may raise. *)
Definition io (A : Type) : Type := World -> outcome A * World.

Definition ret (A : Type) (a : A) : io A := fun w => (Return a, w).

Definition bind (A B : Type) (c : io A) (f : A -> io B) : io B :=
  fun w =>
    match c w with
    | (Return a, w') => f a w'
    | (Raise e, w') => (Raise e, w')
    end.

Definition lift (A : Type) (o : outcome A) : io A := fun w => (o, w).

Definition print (line : str) : io unit :=
  fun w => (Return tt, {| stdout := stdout w ++ [line] |}).

Notation "x <- c ;; k" := (bind c (fun x => k))
  (at level 61, c at next level, right associativity).
Notation "c ;; k" := (bind c (fun _ => k))
  (at level 61, right associativity).

(** [min(l)] and [max(l)] *)
Definition py_min (l : list Z) : outcome Z :=
  match l with
  | [] => Raise ValueError
  | x :: l' => Return (fold_left Z.min l' x)
  end.

Definition py_max (l : list Z) : outcome Z :=
  match l with
  | [] => Raise ValueError
  | x :: l' => Return (fold_left Z.max l' x)
  end.

(** [len(l) == 0], the truth value [not l] of a list. *)
Definition is_empty (A : Type) (l : list A) : bool :=
  match l with [] => true | _ :: _ => false end.

(** [l[i]] for an index the caller has checked to be in range. *)
Definition item (l : list str) (i : nat) : str := nth i l [].

(** ** The data sets and the citation records *)

Definition DATASETS : dict := [
  (lit "crop_production", VStr (lit "9ef84268-d588-465a-a308-a864a43d0070"));
  (lit "rainfall", VStr (lit "e9aafad3-6a08-4f66-b59d-38c65e7ae44f"))
].

(** [DATASETS[key]] for one of its two keys. *)
Definition dataset (key : string) : value :=
  match get (lit key) DATASETS with
  | Some v => v
  | None => VStr []
  end.

Definition crop_statistics_url : str :=
  lit "https://www.data.gov.in/catalog/district-wise-season-wise-crop-production-statistics-0".

(** ** AnswerGenerator *)

Definition warning_marker : str := [9888%N; 65039%N].   (* U+26A0 U+FE0F *)

Definition handle_rainfall_comparison (states : list str) (years : list Z)
    : outcome dict :=
  if List.length states <? 2 then
    Return [
      (lit "answer",
       VStr (warning_marker
             ++ lit " Please specify at least two states to compare rainfall."));
      (lit "sources", VList [])
    ]
  else
    let! lo := py_min years in
    let! hi := py_max years in
    let year_range := str_of_int lo ++ lit "-" ++ str_of_int hi in
    let answer :=
      lit "**Rainfall Comparison Analysis (" ++ year_range ++ lit ")**"
      ++ nl ++ nl in
    let answer := answer ++ lit "**" ++ item states 0 ++ lit ":**" ++ nl in
    let answer := answer ++ lit "- Average annual rainfall: 850mm" ++ nl in
    let answer := answer ++ lit "- Monsoon contribution: 75%" ++ nl in
    let answer := answer ++ lit "- Winter rainfall: 15%" ++ nl in
    let answer := answer ++ lit "- Pre-monsoon: 10%" ++ nl ++ nl in
    let answer := answer ++ lit "**" ++ item states 1 ++ lit ":**" ++ nl in
    let answer := answer ++ lit "- Average annual rainfall: 720mm" ++ nl in
    let answer := answer ++ lit "- Monsoon contribution: 70%" ++ nl in
    let answer := answer ++ lit "- Winter rainfall: 20%" ++ nl in
    let answer := answer ++ lit "- Pre-monsoon: 10%" ++ nl ++ nl in
    let answer := answer ++ lit "**Top 3 Most Produced Crops:**" ++ nl ++ nl in
    let answer := answer ++ lit "**" ++ item states 0 ++ lit ":**" ++ nl in
    let answer := answer ++ lit "1. Wheat - 18.5 million tonnes/year" ++ nl in
    let answer := answer ++ lit "2. Rice - 12.3 million tonnes/year" ++ nl in
    let answer :=
      answer ++ lit "3. Cotton - 1.8 million tonnes/year" ++ nl ++ nl in
    let answer := answer ++ lit "**" ++ item states 1 ++ lit ":**" ++ nl in
    let answer := answer ++ lit "1. Wheat - 11.2 million tonnes/year" ++ nl in
    let answer := answer ++ lit "2. Rice - 4.5 million tonnes/year" ++ nl in
    let answer := answer ++ lit "3. Sugarcane - 3.1 million tonnes/year" ++ nl in
    let sources := [
      VDict [
        (lit "dataset", VStr (lit "Rainfall in India"));
        (lit "source", VStr (lit "India Meteorological Department (IMD)"));
        (lit "url", VStr (lit "https://www.data.gov.in/catalog/rainfall-india"));
        (lit "resource_id", dataset "rainfall")
      ];
      VDict [
        (lit "dataset", VStr (lit "District-wise Crop Production Statistics"));
        (lit "source", VStr (lit "Ministry of Agriculture & Farmers Welfare"));
        (lit "url", VStr crop_statistics_url);
        (lit "resource_id", dataset "crop_production")
      ]
    ] in
    Return [
      (lit "answer", VStr answer);
      (lit "sources", VList sources);
      (lit "metadata", VDict [
        (lit "states", strs states);
        (lit "years", ints years);
        (lit "query_type", VStr (lit "rainfall_comparison"))
      ])
    ].

Definition handle_production_extremes (states crops : list str)
    (years : list Z) : outcome dict :=
  if is_empty states || is_empty crops then
    Return [
      (lit "answer",
       VStr (warning_marker
             ++ lit " Please specify both states and crops for production analysis."));
      (lit "sources", VList [])
    ]
  else
    let crop := item crops 0 in
    let! year := if is_empty years then Return 2023%Z else py_max years in
    let answer :=
      lit "**Production Analysis: " ++ crop ++ lit " (" ++ str_of_int year
      ++ lit ")**" ++ nl ++ nl in
    let answer :=
      if 2 <=? List.length states then
        let answer := answer ++ lit "**" ++ item states 0 ++ lit ":**" ++ nl in
        let answer :=
          answer ++ lit "- Highest producing district: Ludhiana" ++ nl in
        let answer := answer ++ lit "- Production: 2,450,000 tonnes" ++ nl in
        let answer := answer ++ lit "- Share of state production: 35%" ++ nl in
        let answer :=
          answer
          ++ lit "- Key factors: Extensive irrigation, fertile soil, modern farming techniques"
          ++ nl ++ nl in
        let answer := answer ++ lit "**" ++ item states 1 ++ lit ":**" ++ nl in
        let answer :=
          answer ++ lit "- Lowest producing district: Panchkula" ++ nl in
        let answer := answer ++ lit "- Production: 45,000 tonnes" ++ nl in
        let answer :=
          answer ++ lit "- Share of state production: 0.8%" ++ nl in
        let answer :=
          answer
          ++ lit "- Key factors: Hilly terrain, limited irrigation infrastructure"
          ++ nl ++ nl in
        let answer :=
          answer
          ++ lit "**Analysis:** The production difference of ~54x highlights the critical role of " in
        let answer :=
          answer
          ++ lit "geographical factors and agricultural infrastructure in crop yields." in
        answer
      else answer in
    let sources := [
      VDict [
        (lit "dataset", VStr (lit "District-wise Crop Production Statistics"));
        (lit "source",
         VStr (lit "Ministry of Agriculture & Farmers Welfare, Directorate of Economics and Statistics"));
        (lit "url", VStr crop_statistics_url);
        (lit "resource_id", dataset "crop_production")
      ]
    ] in
    Return [
      (lit "answer", VStr answer);
      (lit "sources", VList sources);
      (lit "metadata", VDict [
        (lit "states", strs states);
        (lit "crops", strs crops);
        (lit "year", VInt year)
      ])
    ].

Definition handle_production_query (states crops : list str) (years : list Z)
    : outcome dict :=
  let answer := lit "**Crop Production Analysis**" ++ nl ++ nl in
  let answer :=
    if is_empty crops then answer
    else answer ++ lit "**Crops:** " ++ join (lit ", ") crops ++ nl in
  let answer :=
    if is_empty states then answer
    else answer ++ lit "**States:** " ++ join (lit ", ") states ++ nl in
  let! answer :=
    if is_empty years then Return answer
    else
      let! lo := py_min years in
      let! hi := py_max years in
      Return (answer ++ lit "**Period:** " ++ str_of_int lo ++ lit "-"
              ++ str_of_int hi ++ nl ++ nl) in
  let answer :=
    answer
    ++ lit "Based on data from the Ministry of Agriculture & Farmers Welfare, " in
  let answer :=
    answer
    ++ lit "crop production patterns vary significantly across regions based on " in
  let answer :=
    answer ++ lit "climate, soil conditions, and irrigation infrastructure."
    ++ nl ++ nl in
  let answer := answer ++ lit "For detailed analysis, please specify:" ++ nl in
  let answer := answer ++ lit "- Comparison type (highest/lowest)" ++ nl in
  let answer := answer ++ lit "- Specific districts or regions" ++ nl in
  let answer := answer ++ lit "- Time period for trend analysis" in
  let sources := [
    VDict [
      (lit "dataset", VStr (lit "District-wise Crop Production Statistics"));
      (lit "source", VStr (lit "Ministry of Agriculture & Farmers Welfare"));
      (lit "url", VStr crop_statistics_url);
      (lit "resource_id", dataset "crop_production")
    ]
  ] in
  Return [
    (lit "answer", VStr answer);
    (lit "sources", VList sources)
  ].

(** The fixed text of the general answer after the context line. *)
Definition general_help : str :=
  lit "I can help you analyze data from data.gov.in including:" ++ nl
  ++ nl
  ++ lit "**Rainfall Analysis:**" ++ nl
  ++ lit "- Compare rainfall patterns between states" ++ nl
  ++ lit "- Seasonal distribution analysis" ++ nl
  ++ lit "- Historical trends and anomalies" ++ nl
  ++ nl
  ++ lit "**Crop Production:**" ++ nl
  ++ lit "- State and district-wise production statistics" ++ nl
  ++ lit "- Top producing regions identification" ++ nl
  ++ lit "- Year-over-year production trends" ++ nl
  ++ nl
  ++ lit "**Correlations:**" ++ nl
  ++ lit "- Impact of rainfall on crop yields" ++ nl
  ++ lit "- Regional suitability analysis" ++ nl
  ++ lit "- Climate-agriculture relationships" ++ nl
  ++ nl
  ++ lit "**Example Questions:**" ++ nl
  ++ lit "- " ++ dquote
  ++ lit "Compare rainfall in Punjab and Haryana for last 5 years"
  ++ dquote ++ nl
  ++ lit "- " ++ dquote
  ++ lit "Highest wheat production district in Punjab in 2023"
  ++ dquote ++ nl
  ++ lit "- " ++ dquote
  ++ lit "Production trend of rice in West Bengal over last decade"
  ++ dquote ++ nl
  ++ nl
  ++ lit "Please rephrase your question with specific states, crops, and time periods for detailed analysis.".

(** The context line of the general answer. *)
Definition general_context (states crops : list str) (years : list Z) : str :=
  let context_parts := [] in
  let context_parts :=
    if is_empty states then context_parts
    else context_parts ++ [lit "States: " ++ join (lit ", ") states] in
  let context_parts :=
    if is_empty crops then context_parts
    else context_parts ++ [lit "Crops: " ++ join (lit ", ") crops] in
  let context_parts :=
    if is_empty years then context_parts
    else context_parts
         ++ [lit "Years: " ++ join (lit ", ") (List.map str_of_int years)] in
  if is_empty context_parts then lit "General inquiry"
  else join (lit " | ") context_parts.

Definition handle_general (query : str) (states crops : list str)
    (years : list Z) : outcome dict :=
  let context := general_context states crops years in
  let answer :=
    lit "**Agricultural Data Analysis Request**" ++ nl
    ++ nl
    ++ lit "**Detected Context:** " ++ context ++ nl
    ++ nl
    ++ general_help in
  let sources := [
    VDict [
      (lit "dataset", VStr (lit "Open Government Data Platform"));
      (lit "source", VStr (lit "Government of India"));
      (lit "url", VStr (lit "https://www.data.gov.in"))
    ]
  ] in
  Return [
    (lit "answer", VStr answer);
    (lit "sources", VList sources)
  ].

Section AnswerGenerator.
Context {U : Unicode} {L : Limits}.

Definition answer_query (query : str) : io dict :=
  let query_type := classify_query query in
  let states := extract_states query in
  let crops := extract_crops query in
  years <- lift (extract_years query) ;;
  print (lit "[INFO] Query type: " ++ query_type) ;;
  print (lit "[INFO] States: " ++ str_of_list repr_name states
         ++ lit ", Crops: " ++ str_of_list repr_name crops
         ++ lit ", Years: " ++ str_of_list str_of_int years) ;;
  if str_eqb query_type (lit "rainfall_comparison") then
    lift (handle_rainfall_comparison states years)
  else if str_eqb query_type (lit "production_extremes") then
    lift (handle_production_extremes states crops years)
  else if str_eqb query_type (lit "production_query") then
    lift (handle_production_query states crops years)
  else
    lift (handle_general query states crops years).
End AnswerGenerator.

(** ** The HTTP endpoints

    A request body and a response payload are JSON values; a JSON number
    is an integer here.  The current time, as
    [datetime.now().isoformat()] gives it, and the value of the
    environment variable are arguments of the endpoints. *)

Inductive json : Type :=
  | JNull
  | JBool (b : bool)
  | JInt (z : Z)
  | JStr (s : str)
  | JList (l : list json)
  | JDict (d : list (str * json)).

(** [d.get(key)] on the items of a JSON object. *)
Fixpoint jget (key : str) (d : list (str * json)) : option json :=
  match d with
  | [] => None
  | (k, v) :: d' => if str_eqb k key then Some v else jget key d'
  end.

(** What [jsonify] makes of a value. *)
Fixpoint to_json (v : value) : json :=
  match v with
  | VStr s => JStr s
  | VInt z => JInt z
  | VList l => JList (List.map to_json l)
  | VDict d => JDict (List.map (fun kv => (fst kv, to_json (snd kv))) d)
  end.

(** [type(v).__name__] of a parsed JSON value. *)
Definition type_name (v : json) : str :=
  match v with
  | JNull => lit "NoneType"
  | JBool _ => lit "bool"
  | JInt _ => lit "int"
  | JStr _ => lit "str"
  | JList _ => lit "list"
  | JDict _ => lit "dict"
  end.

(** [bool(v)] of a parsed JSON value. *)
Definition truthy (v : json) : bool :=
  match v with
  | JNull => false
  | JBool b => b
  | JInt z => negb (Z.eqb z 0)
  | JStr s => negb (is_empty s)
  | JList l => negb (is_empty l)
  | JDict d => negb (is_empty d)
  end.

(** What the body of [handle_query] can raise. *)
Inductive error : Type :=
  | AttributeError (type attribute : str)
  | KeyError (key : str)
  | Builtin (e : exn).

(** [str(e)]; the text for [ValueError] is that of [min] in CPython up to
    3.11. *)
Definition str_of_error (e : error) : str :=
  match e with
  | AttributeError type attribute =>
      lit "'" ++ type ++ lit "' object has no attribute '" ++ attribute
      ++ lit "'"
  | KeyError key => repr_name key
  | Builtin ValueError => lit "min() arg is an empty sequence"
  | Builtin (IntDigits limit digits) =>
      lit "Exceeds the limit (" ++ str_of_int (Z.of_nat limit)
      ++ lit " digits) for integer string conversion: value has "
      ++ str_of_int (Z.of_nat digits)
      ++ lit " digits; use sys.set_int_max_str_digits() to increase the limit"
  | Builtin OverflowError =>
      lit "Python int too large to convert to C ssize_t"
  | Builtin MemoryError => []
  end.

Record Response : Type := {
  status : Z;
  payload : json
}.

Definition default_api_key : str :=
  lit "579b464db66ec23bdd0000018a6106b76c2945216a647166ce5e7849".

(** [os.getenv('DATAGOVIN_API_KEY', default)], given the value of the
    variable if it is set. *)
Definition API_KEY (env : option str) : str :=
  match env with
  | Some v => v
  | None => default_api_key
  end.

Definition health_check (env : option str) (now : str) : Response :=
  {| status := 200;
     payload := JDict [
       (lit "status", JStr (lit "healthy"));
       (lit "api_key_configured", JBool (negb (is_empty (API_KEY env))));
       (lit "timestamp", JStr now);
       (lit "version", JStr (lit "1.0.0"))
     ] |}.

Definition list_datasets : Response :=
  {| status := 200;
     payload := JDict [
       (lit "datasets", JList [
          JDict [
            (lit "id", JStr (lit "crop_production"));
            (lit "name", JStr (lit "District-wise Crop Production Statistics"));
            (lit "source", JStr (lit "Ministry of Agriculture & Farmers Welfare"));
            (lit "resource_id", to_json (dataset "crop_production"));
            (lit "url", JStr crop_statistics_url)
          ];
          JDict [
            (lit "id", JStr (lit "rainfall"));
            (lit "name", JStr (lit "Rainfall in India"));
            (lit "source", JStr (lit "India Meteorological Department (IMD)"));
            (lit "resource_id", to_json (dataset "rainfall"));
            (lit "url", JStr (lit "https://www.data.gov.in/catalog/rainfall-india"))
          ]
       ])
     ] |}.

Section Endpoints.
Context {U : Unicode} {L : Limits}.

(** The [try] body of [handle_query], given [request.json]: a response,
    or the exception raised. *)
Definition query_attempt (data : json) (now : str) (w : World)
    : (error + Response) * World :=
  match data with
  | JDict d =>
      let query :=
        match jget (lit "query") d with
        | Some v => v
        | None => JStr []
        end in
      if negb (truthy query) then
        (inr {| status := 400;
                payload := JDict [
                  (lit "success", JBool false);
                  (lit "error", JStr (lit "No query provided"))
                ] |}, w)
      else
        match query with
        | JStr text =>
            match answer_query text w with
            | (Return result, w') =>
                match get (lit "answer") result with
                | Some answer =>
                    let sources :=
                      match get (lit "sources") result with
                      | Some v => v
                      | None => VList []
                      end in
                    let metadata :=
                      match get (lit "metadata") result with
                      | Some v => v
                      | None => VDict []
                      end in
                    (inr {| status := 200;
                            payload := JDict [
                              (lit "success", JBool true);
                              (lit "query", query);
                              (lit "answer", to_json answer);
                              (lit "sources", to_json sources);
                              (lit "metadata", to_json metadata);
                              (lit "timestamp", JStr now)
                            ] |}, w')
                | None => (inl (KeyError (lit "answer")), w')
                end
            | (Raise e, w') => (inl (Builtin e), w')
            end
        | _ => (inl (AttributeError (type_name query) (lit "lower")), w)
        end
  | _ => (inl (AttributeError (type_name data) (lit "get")), w)
  end.

Definition handle_query (data : json) (now : str) (w : World)
    : Response * World :=
  match query_attempt data now w with
  | (inr response, w') => (response, w')
  | (inl e, w') =>
      ({| status := 500;
          payload := JDict [
            (lit "success", JBool false);
            (lit "error", JStr (str_of_error e))
          ] |},
       {| stdout := stdout w' ++ [lit "[ERROR] " ++ str_of_error e] |})
  end.
End Endpoints.

(** The citation records of a result, and the resource identifiers they
    name. *)
Definition citations (o : outcome dict) : list value :=
  match o with
  | Return d =>
      match get (lit "sources") d with
      | Some (VList l) => l
      | _ => []
      end
  | Raise _ => []
  end.

Definition resource_ids (records : list value) : list value :=
  flat_map (fun c =>
              match c with
              | VDict r =>
                  match get (lit "resource_id") r with
                  | Some v => [v]
                  | None => []
                  end
              | _ => []
              end) records.

(** The resource identifiers [list_datasets] lists. *)
Definition listed_ids : list json :=
  match payload list_datasets with
  | JDict d =>
      match jget (lit "datasets") d with
      | Some (JList l) =>
          flat_map (fun c =>
                      match c with
                      | JDict r =>
                          match jget (lit "resource_id") r with
                          | Some v => [v]
                          | None => []
                          end
                      | _ => []
                      end) l
      | _ => []
      end
  | _ => []
  end.

(** ** What the specification words differently

    The definitions below follow the specification and are compared with
    the code's in the theorems. *)

(** Priority rules: the label of the first rule whose test holds. *)
Fixpoint first_match (rules : list (bool * str)) (default : str) : str :=
  match rules with
  | [] => default
  | (test, label) :: rest => if test then label else first_match rest default
  end.

Section Specification.
Context {U : Unicode}.

(** The five rules of the classifier, in priority order, on the
    lower-cased query. *)
Definition priority_rules (query_lower : str) : list (bool * str) :=
  let has (word : string) := str_in (lit word) query_lower in
  [ (has "compare"%string && has "rainfall"%string,
     lit "rainfall_comparison");
    (has "highest"%string || has "lowest"%string,
     lit "production_extremes");
    (has "trend"%string, lit "trend_analysis");
    (has "rainfall"%string, lit "rainfall_query");
    (has "production"%string || has "crop"%string,
     lit "production_query") ].

(** A canonical name occurs in the query, case-insensitively. *)
Definition mentions (query name : str) : bool :=
  str_in (str_lower name) (str_lower query).

(** The last character of a text, if any. *)
Definition last_char (s : str) : option N :=
  match rev s with
  | c :: _ => Some c
  | [] => None
  end.

(** The text holds a word-bounded token "20dd": "20" and two digits, with
    a word boundary on each side. *)
Definition year_token (s : str) : Prop :=
  exists (before : str) (d1 d2 : N) (after : str),
    s = before ++ lit "20" ++ [d1; d2] ++ after /\
    is_digit d1 = true /\ is_digit d2 = true /\
    xorb (word_before (last_char before)) (is_word 50) = true /\
    xorb (is_word d2) (word_after after) = true.

(** The text holds the phrase "last N year": "last", white space, the
    digits of N, white space and "year". *)
Definition last_phrase (s digits : str) : Prop :=
  exists before ws1 ws2 after : str,
    s = before ++ lit "last" ++ ws1 ++ digits ++ ws2 ++ lit "year" ++ after /\
    ws1 <> [] /\ forallb is_space ws1 = true /\
    digits <> [] /\ forallb is_digit digits = true /\
    ws2 <> [] /\ forallb is_space ws2 = true.
End Specification.

(** The four handlers and the dispatch table of the specification. *)
Inductive handler : Type :=
  | RainfallComparison
  | ProductionExtremes
  | ProductionQuery
  | General.

Definition dispatch (query_type : str) : handler :=
  if str_eqb query_type (lit "rainfall_comparison") then RainfallComparison
  else if str_eqb query_type (lit "production_extremes") then ProductionExtremes
  else if str_eqb query_type (lit "production_query") then ProductionQuery
  else General.

Definition call (h : handler) (query : str) (states crops : list str)
    (years : list Z) : outcome dict :=
  match h with
  | RainfallComparison => handle_rainfall_comparison states years
  | ProductionExtremes => handle_production_extremes states crops years
  | ProductionQuery => handle_production_query states crops years
  | General => handle_general query states crops years
  end.

(** The handler an answer text shows to come from, by how it begins. *)
Definition owner (answer : str) : handler :=
  if startswith answer (lit "**Rainfall")
     || startswith answer (warning_marker ++ lit " Please specify at")
  then RainfallComparison
  else if startswith answer (lit "**Production")
          || startswith answer (warning_marker ++ lit " Please specify both")
  then ProductionExtremes
  else if startswith answer (lit "**Crop") then ProductionQuery
  else General.

Definition labels : list str := List.map lit [
  "rainfall_comparison"; "production_extremes"; "trend_analysis";
  "rainfall_query"; "production_query"; "general"
]%string.

(** No two elements of [l] are equal. *)
Fixpoint distinct (l : list str) : bool :=
  match l with
  | [] => true
  | x :: l' => negb (existsb (str_eqb x) l') && distinct l'
  end.

(** ** Helpers for stating what the endpoints and handlers return *)

(** The answer of an outcome, if it returned one. *)
Definition answer_of (o : outcome dict) : option value :=
  match o with
  | Return d => get (lit "answer") d
  | Raise _ => None
  end.

(** A citation record has the three keys every client reads. *)
Definition well_formed_citation (c : value) : bool :=
  match c with
  | VDict r =>
      match get (lit "dataset") r, get (lit "source") r, get (lit "url") r with
      | Some (VStr _), Some (VStr _), Some (VStr _) => true
      | _, _, _ => false
      end
  | _ => false
  end.

(** [data.get('query', '')] *)
Definition query_of (d : list (str * json)) : json :=
  match jget (lit "query") d with
  | Some v => v
  | None => JStr []
  end.

(** [result.get(key, default)] as [jsonify] renders it. *)
Definition rendered (key : string) (default : value) (result : dict) : json :=
  match get (lit key) result with
  | Some v => to_json v
  | None => to_json default
  end.

(** The field [key] of the payload of a response. *)
Definition field (key : string) (r : Response) : option json :=
  match payload r with
  | JDict d => jget (lit key) d
  | _ => None
  end.

Definition is_str (v : json) : bool :=
  match v with JStr _ => true | _ => false end.

Definition is_dict (v : json) : bool :=
  match v with JDict _ => true | _ => false end.

Definition no_query_response : Response :=
  {| status := 400;
     payload := JDict [
       (lit "success", JBool false);
       (lit "error", JStr (lit "No query provided")) ] |}.

Definition error_response (e : error) : Response :=
  {| status := 500;
     payload := JDict [
       (lit "success", JBool false);
       (lit "error", JStr (str_of_error e)) ] |}.

Fixpoint strs_eqb (a b : list str) : bool :=
  match a, b with
  | [], [] => true
  | x :: a', y :: b' => str_eqb x y && strs_eqb a' b'
  | _, _ => false
  end.

(** The one-character nodes of a pattern. *)
Fixpoint atoms_of (r : regex) : list atom :=
  match r with
  | [] => []
  | One a :: r' => a :: atoms_of r'
  | Many1 a :: r' => a :: atoms_of r'
  | Maybe a :: r' => a :: atoms_of r'
  | _ :: r' => atoms_of r'
  end.

(** The code points below 256. *)
Definition latin1_range : list N := List.map N.of_nat (seq 0 256).

(** * Properties *)

(** ** Strings *)

Lemma str_eqb_eq (a b : str) : str_eqb a b = true <-> a = b.
Proof.
  revert b; induction a as [|x a IH]; intros [|y b]; simpl;
    try (split; (discriminate || reflexivity)).
  rewrite andb_true_iff, N.eqb_eq, IH.
  split; [intros [-> ->]; reflexivity | intros E; inversion E; auto].
Qed.

Lemma str_eqb_refl (a : str) : str_eqb a a = true.
Proof. apply str_eqb_eq; reflexivity. Qed.

Lemma str_eqb_neq (a b : str) : str_eqb a b = false <-> a <> b.
Proof.
  rewrite <- str_eqb_eq. destruct (str_eqb a b); split; congruence.
Qed.

Lemma startswith_prefix (s p : str) :
  startswith s p = true <-> exists rest, s = p ++ rest.
Proof.
  revert s; induction p as [|x p IH]; intros s; simpl.
  - split; [exists s; reflexivity | reflexivity].
  - destruct s as [|y s].
    + split; [discriminate | intros [rest E]; discriminate].
    + rewrite andb_true_iff, N.eqb_eq, IH. split.
      * intros [-> [rest ->]]. exists rest; reflexivity.
      * intros [rest E]. inversion E; subst. split; [reflexivity | eauto].
Qed.

(** [str_in] is the plain substring test: no condition on what surrounds
    the occurrence. *)
Lemma str_in_substring (p s : str) :
  str_in p s = true <-> exists before after, s = before ++ p ++ after.
Proof.
  induction s as [|y s IH].
  - simpl. rewrite orb_false_r, startswith_prefix. split.
    + intros [rest E]. exists [], rest. exact E.
    + intros [[|b before] [after E]]; [eauto | discriminate].
  - cbn [str_in]. rewrite orb_true_iff, startswith_prefix, IH. split.
    + intros [[rest E] | [before [after E]]].
      * exists [], rest. exact E.
      * exists (y :: before), after. rewrite E. reflexivity.
    + intros [[|b before] [after E]].
      * left. exists after. exact E.
      * right. inversion E; subst. eauto.
Qed.

Lemma distinct_NoDup (l : list str) : distinct l = true -> NoDup l.
Proof.
  induction l as [|x l IH]; simpl; intros H; constructor.
  - apply andb_true_iff in H as [H _]. intros Hin.
    apply negb_true_iff in H.
    assert (existsb (str_eqb x) l = true); [|congruence].
    apply existsb_exists. exists x. split; [exact Hin | apply str_eqb_refl].
  - apply andb_true_iff in H as [_ H]. auto.
Qed.

Lemma is_empty_nil (A : Type) (l : list A) : is_empty l = true <-> l = [].
Proof. destruct l; simpl; split; (reflexivity || discriminate). Qed.

Example str_of_int_runs :
  List.map str_of_int [0; 7; 2023; -976]%Z
  = [lit "0"; lit "7"; lit "2023"; lit "-976"].
Proof. vm_compute. reflexivity. Qed.

(** ** The parser *)

Lemma collect_filter {U : Unicode} (names : list str) (query_lower : str)
    (found : list str) :
  collect names query_lower found =
  found ++ filter (fun name => str_in (str_lower name) query_lower) names.
Proof.
  revert found; induction names as [|name rest IH]; intros found; simpl.
  - rewrite app_nil_r. reflexivity.
  - destruct (str_in (str_lower name) query_lower); rewrite IH.
    + rewrite <- app_assoc. reflexivity.
    + reflexivity.
Qed.

Lemma STATES_NoDup : NoDup STATES.
Proof. apply distinct_NoDup. vm_compute. reflexivity. Qed.

Lemma CROPS_NoDup : NoDup CROPS.
Proof. apply distinct_NoDup. vm_compute. reflexivity. Qed.

Lemma extract_states_filter {U : Unicode} (query : str) :
  extract_states query = filter (mentions query) STATES.
Proof. unfold extract_states. rewrite collect_filter. reflexivity. Qed.

Lemma extract_crops_filter {U : Unicode} (query : str) :
  extract_crops query = filter (mentions query) CROPS.
Proof. unfold extract_crops. rewrite collect_filter. reflexivity. Qed.

(** C7: [extract_states] and [extract_crops] return exactly the names of
    their canonical list of 20 that occur in the lower-cased query as
    substrings of it, in the order of the canonical list, each once; an
    occurrence is any position of the query, whatever surrounds it. *)
Theorem extract_names_canonical_sublist {U : Unicode} (query : str) :
  List.length STATES = 20 /\ List.length CROPS = 20 /\
  extract_states query = filter (mentions query) STATES /\
  extract_crops query = filter (mentions query) CROPS /\
  NoDup (extract_states query) /\ NoDup (extract_crops query) /\
  forall name : str,
    mentions query name = true <->
    exists before after,
      str_lower query = before ++ str_lower name ++ after.
Proof.
  rewrite extract_states_filter, extract_crops_filter.
  repeat split; try reflexivity.
  - apply NoDup_filter, STATES_NoDup.
  - apply NoDup_filter, CROPS_NoDup.
  - apply str_in_substring.
  - apply str_in_substring.
Qed.

(** Canonical order, not order of appearance; no word boundary. *)
Example extract_states_order :
  extract_states (lit "Kerala is south of PUNJABI-speaking regions")
  = [lit "Punjab"; lit "Kerala"].
Proof. vm_compute. reflexivity. Qed.

Example extract_crops_inside_word :
  extract_crops (lit "a price list and a steam engine")
  = [lit "Rice"; lit "Tea"].
Proof. vm_compute. reflexivity. Qed.

(** C1: [classify_query] is the first-match evaluation of the five
    priority rules on the lower-cased query, with [general] when none
    applies; so a query with "compare", "rainfall" and "highest" is a
    [rainfall_comparison], not a [production_extremes]. *)
Theorem classify_query_priority {U : Unicode} (query : str) :
  classify_query query
  = first_match (priority_rules (str_lower query)) (lit "general") /\
  (str_in (lit "compare") (str_lower query) = true ->
   str_in (lit "rainfall") (str_lower query) = true ->
   str_in (lit "highest") (str_lower query) = true ->
   classify_query query = lit "rainfall_comparison" /\
   classify_query query <> lit "production_extremes").
Proof.
  split.
  - unfold classify_query, priority_rules, first_match. reflexivity.
  - intros Hc Hr _. unfold classify_query. rewrite Hc, Hr. simpl.
    split; [reflexivity | discriminate].
Qed.

Lemma classify_query_priority_witness :
  classify_query (lit "compare rainfall and show highest state")
  = lit "rainfall_comparison" /\
  classify_query (lit "compare rainfall and show highest state")
  <> lit "production_extremes".
Proof.
  apply (classify_query_priority
           (lit "compare rainfall and show highest state"));
    vm_compute; reflexivity.
Defined.

Example classify_query_each_rule :
  List.map classify_query [
    lit "Compare RAINFALL of two states";
    lit "Lowest yield";
    lit "a trend in rainfall";
    lit "rainfall in Assam";
    lit "crop report";
    lit "hello" ]
  = [ lit "rainfall_comparison"; lit "production_extremes";
      lit "trend_analysis"; lit "rainfall_query"; lit "production_query";
      lit "general" ].
Proof. vm_compute. reflexivity. Qed.

Lemma classify_query_label {U : Unicode} (query : str) :
  In (classify_query query) labels.
Proof.
  unfold classify_query.
  repeat match goal with
         | |- context [if ?b then _ else _] => destruct b
         end; simpl; tauto.
Qed.

(** ** Regular expressions

    What the matcher finds for the two patterns of the parser is what
    their text says: a match is an occurrence ([_sound]) and an
    occurrence gives a match ([_complete]). *)

Section RegexFacts.
Context {U : Unicode}.

Lemma one_sound (X : Type) (a : atom) (k : option N -> str -> nat -> option X)
    (s : str) (pos : nat) (r : X) :
  one a k s pos = Some r ->
  exists c s', s = c :: s' /\ atom_ok a c = true /\ k (Some c) s' (S pos) = Some r.
Proof.
  unfold one. destruct s as [|c s']; [discriminate|].
  destruct (atom_ok a c) eqn:E; [|discriminate]. eauto.
Qed.

Lemma many1_sound (X : Type) (a : atom) (k : option N -> str -> nat -> option X)
    (s : str) (r : X) :
  forall prev pos,
  many1 a k prev s pos = Some r ->
  exists cs rest p,
    s = cs ++ rest /\ cs <> [] /\ forallb (atom_ok a) cs = true /\
    k p rest (pos + List.length cs) = Some r.
Proof.
  induction s as [|c s IH]; intros prev pos; simpl; [discriminate|].
  destruct (atom_ok a c) eqn:E; [|discriminate].
  destruct (many1 a k (Some c) s (S pos)) as [r'|] eqn:M.
  - intros H; inversion H; subst r'.
    destruct (IH _ _ M) as [cs [rest [p [-> [Hne [Hall Hk]]]]]].
    exists (c :: cs), rest, p. simpl. rewrite E, Hall.
    repeat split; try discriminate.
    rewrite <- Hk. f_equal. lia.
  - intros Hk. exists [c], s, (Some c). simpl. rewrite E.
    repeat split; try discriminate.
    rewrite <- Hk. f_equal. lia.
Qed.

Lemma many1_complete (X : Type) (a : atom)
    (k : option N -> str -> nat -> option X) (cs rest : str) :
  cs <> [] -> forallb (atom_ok a) cs = true ->
  forall prev pos,
  (forall p, exists r, k p rest (pos + List.length cs) = Some r) ->
  exists r, many1 a k prev (cs ++ rest) pos = Some r.
Proof.
  induction cs as [|c cs IH]; [congruence|].
  intros _ Hall prev pos Hk. simpl in Hall.
  apply andb_true_iff in Hall as [Hc Hall].
  simpl. rewrite Hc.
  destruct (many1 a k (Some c) (cs ++ rest) (S pos)) as [r|] eqn:M; [eauto|].
  destruct cs as [|c' cs].
  - simpl in *. destruct (Hk (Some c)) as [r Hr]. exists r.
    rewrite <- Hr. f_equal. lia.
  - exfalso. destruct (IH ltac:(discriminate) Hall (Some c) (S pos)) as [r Hr].
    + intros p. destruct (Hk p) as [r Hr]. exists r. rewrite <- Hr.
      f_equal. simpl. lia.
    + congruence.
Qed.

Lemma atom_ok_chr (d c : N) : atom_ok (Chr d) c = true -> c = d.
Proof. simpl. apply N.eqb_eq. Qed.

(** Unfolds the two patterns to their nodes and the literals to their
    characters. *)
Ltac expand_re :=
  unfold year_re, last_re, text;
  cbn [lit app List.map list_ascii_of_string].

Lemma run_last_sound (prev : option N) (t : str) (pos e : nat)
    (g0 g : nat * nat) :
  run last_re prev t pos g0 = Some (e, g) ->
  exists ws1 ds ws2 after : str,
    t = lit "last" ++ ws1 ++ ds ++ ws2 ++ lit "year" ++ after /\
    ws1 <> [] /\ forallb is_space ws1 = true /\
    ds <> [] /\ forallb is_digit ds = true /\
    ws2 <> [] /\ forallb is_space ws2 = true /\
    g = (pos + 4 + List.length ws1,
         pos + 4 + List.length ws1 + List.length ds).
Proof.
  expand_re. cbn [run]. intros H.
  apply one_sound in H as [c1 [t1 [-> [E1 H]]]]. apply atom_ok_chr in E1.
  apply one_sound in H as [c2 [t2 [-> [E2 H]]]]. apply atom_ok_chr in E2.
  apply one_sound in H as [c3 [t3 [-> [E3 H]]]]. apply atom_ok_chr in E3.
  apply one_sound in H as [c4 [t4 [-> [E4 H]]]]. apply atom_ok_chr in E4.
  apply many1_sound in H as [ws1 [r1 [p1 [-> [N1 [A1 H]]]]]].
  cbn [fst snd] in H.
  apply many1_sound in H as [ds [r2 [p2 [-> [N2 [A2 H]]]]]].
  cbn [fst snd] in H.
  apply many1_sound in H as [ws2 [r3 [p3 [-> [N3 [A3 H]]]]]].
  apply one_sound in H as [c5 [t5 [-> [E5 H]]]]. apply atom_ok_chr in E5.
  apply one_sound in H as [c6 [t6 [-> [E6 H]]]]. apply atom_ok_chr in E6.
  apply one_sound in H as [c7 [t7 [-> [E7 H]]]]. apply atom_ok_chr in E7.
  apply one_sound in H as [c8 [t8 [-> [E8 H]]]]. apply atom_ok_chr in E8.
  subst. exists ws1, ds, ws2, t8.
  assert (G : g = (S (S (S (S pos))) + List.length ws1,
                   S (S (S (S pos))) + List.length ws1 + List.length ds)).
  { destruct (one (Chr 115) _ t8 _) as [x|] eqn:M in H.
    - apply one_sound in M as [c9 [t9 [_ [_ M]]]]. congruence.
    - congruence. }
  repeat split; auto.
  rewrite G. f_equal; lia.
Qed.

Lemma run_last_complete (prev : option N) (ws1 ds ws2 after : str)
    (pos : nat) (g0 : nat * nat) :
  ws1 <> [] -> forallb is_space ws1 = true ->
  ds <> [] -> forallb is_digit ds = true ->
  ws2 <> [] -> forallb is_space ws2 = true ->
  exists x,
    run last_re prev
      (lit "last" ++ ws1 ++ ds ++ ws2 ++ lit "year" ++ after) pos g0
    = Some x.
Proof.
  intros N1 A1 N2 A2 N3 A3.
  expand_re. cbn [run one atom_ok]. rewrite !N.eqb_refl.
  apply many1_complete; [exact N1 | exact A1 |]. intros p1.
  apply many1_complete; [exact N2 | exact A2 |]. intros p2.
  apply many1_complete; [exact N3 | exact A3 |]. intros p3.
  cbn [app one atom_ok]. rewrite !N.eqb_refl.
  match goal with
  | |- exists r, match ?m with _ => _ end = _ => destruct m
  end; eauto.
Qed.


Lemma last_char_snoc (s : str) (c : N) : last_char (s ++ [c]) = Some c.
Proof. unfold last_char. rewrite rev_app_distr. reflexivity. Qed.

Lemma slice_middle (a b c : str) :
  slice (a ++ b ++ c) (List.length a) (List.length a + List.length b) = b.
Proof.
  unfold slice. rewrite skipn_app, skipn_all, Nat.sub_diag. simpl.
  replace (List.length a + List.length b - List.length a)
    with (List.length b + 0) by lia.
  rewrite firstn_app_2. simpl. apply app_nil_r.
Qed.

(** A match found by the search is a match of the pattern at some
    position of the subject. *)
Lemma search_from_sound (r : regex) (subject : str) (m : Match) :
  forall s before,
  subject = before ++ s ->
  search_from r subject (last_char before) s (List.length before) = Some m ->
  exists before' t e g,
    subject = before' ++ t /\
    run r (last_char before') t (List.length before')
      (List.length before', List.length before') = Some (e, g) /\
    m = {| m_string := subject; m_span := (List.length before', e);
           m_span1 := g |}.
Proof.
  induction s as [|c s IH]; intros before Hs; simpl.
  - destruct (run r (last_char before) [] _ _) as [[e g]|] eqn:R;
      [|discriminate].
    intros H; inversion H; subst m. exists before, [], e, g. auto.
  - destruct (run r (last_char before) (c :: s) _ _) as [[e g]|] eqn:R.
    + intros H; inversion H; subst m. exists before, (c :: s), e, g. auto.
    + intros H. apply (IH (before ++ [c])).
      * rewrite <- app_assoc. exact Hs.
      * rewrite last_char_snoc, length_app, Nat.add_1_r. exact H.
Qed.

(** Where the pattern matches at some position, the search finds a
    match. *)
Lemma search_from_complete (r : regex) (subject t : str) :
  forall before prev i,
  (forall p, exists x,
     run r p t (i + List.length before)
       (i + List.length before, i + List.length before) = Some x) ->
  exists m, search_from r subject prev (before ++ t) i = Some m.
Proof.
  induction before as [|c before IH]; intros prev i Hrun.
  - simpl in *. rewrite Nat.add_0_r in Hrun.
    destruct (Hrun prev) as [[e g] R].
    destruct t; simpl; rewrite R; eauto.
  - simpl.
    destruct (run r prev (c :: before ++ t) i (i, i)) as [[e g]|]; [eauto|].
    apply IH. intros p. simpl in Hrun.
    replace (S i + List.length before) with (i + S (List.length before))
      by lia.
    apply Hrun.
Qed.

Lemma findall_from_sound (r : regex) (subject : str) (m : Match) :
  forall s before skip,
  subject = before ++ s ->
  In m (findall_from r subject (last_char before) s (List.length before) skip) ->
  exists before' t e g,
    subject = before' ++ t /\
    run r (last_char before') t (List.length before')
      (List.length before', List.length before') = Some (e, g) /\
    m = {| m_string := subject; m_span := (List.length before', e);
           m_span1 := g |}.
Proof.
  induction s as [|c s IH]; intros before skip Hs.
  - destruct skip; simpl; [|tauto].
    destruct (run r (last_char before) [] _ _) as [[e g]|] eqn:R;
      simpl; [|tauto].
    intros [<- | []]. exists before, [], e, g. auto.
  - assert (Step : forall k,
              In m (findall_from r subject (Some c) s
                      (S (List.length before)) k) ->
              exists before' t e g,
                subject = before' ++ t /\
                run r (last_char before') t (List.length before')
                  (List.length before', List.length before') = Some (e, g) /\
                m = {| m_string := subject; m_span := (List.length before', e);
                       m_span1 := g |}).
    { intros k H. apply (IH (before ++ [c]) k).
      - rewrite <- app_assoc. exact Hs.
      - rewrite last_char_snoc, length_app, Nat.add_1_r. exact H. }
    destruct skip; simpl; [|apply Step].
    destruct (run r (last_char before) (c :: s) _ _) as [[e g]|] eqn:R;
      simpl; [|apply Step].
    intros [<- | H]; [|exact (Step _ H)].
    exists before, (c :: s), e, g. auto.
Qed.

Lemma run_year_sound (prev : option N) (t : str) (pos e : nat)
    (g0 g : nat * nat) :
  run year_re prev t pos g0 = Some (e, g) ->
  exists (d1 d2 : N) (after : str),
    t = lit "20" ++ [d1; d2] ++ after /\
    is_digit d1 = true /\ is_digit d2 = true /\
    xorb (word_before prev) (is_word 50) = true /\
    xorb (is_word d2) (word_after after) = true /\
    g = (pos, pos + 4).
Proof.
  expand_re. cbn [run]. intros H.
  destruct (xorb (word_before prev) (word_after t)) eqn:B1; [|discriminate].
  apply one_sound in H as [c1 [t1 [-> [E1 H]]]]. apply atom_ok_chr in E1.
  apply one_sound in H as [c2 [t2 [-> [E2 H]]]]. apply atom_ok_chr in E2.
  apply one_sound in H as [d1 [t3 [-> [E3 H]]]].
  apply one_sound in H as [d2 [t4 [-> [E4 H]]]].
  cbn [word_before fst snd] in H.
  destruct (xorb (is_word d2) (word_after t4)) eqn:B2; [|discriminate].
  inversion H; subst. exists d1, d2, t4.
  repeat split; auto. f_equal. lia.
Qed.

(** A match of [last_re] found by [re.search] is an occurrence of the
    phrase, and its group 1 is the digits of that occurrence. *)
Lemma re_search_last_sound (s : str) (m : Match) :
  re_search last_re s = Some m ->
  m_string m = s /\ last_phrase s (group1 m).
Proof.
  unfold re_search. intros H.
  apply (@search_from_sound last_re s m s []) in H; [|reflexivity].
  destruct H as [before [t [e [g [Hs [R ->]]]]]].
  split; [reflexivity|].
  apply run_last_sound in R
    as [ws1 [ds [ws2 [after [-> [N1 [A1 [N2 [A2 [N3 [A3 ->]]]]]]]]]]].
  exists before, ws1, ws2, after. unfold group1. cbn [m_string m_span1 fst snd].
  rewrite Hs.
  replace (before ++ lit "last" ++ ws1 ++ ds ++ ws2 ++ lit "year" ++ after)
    with ((before ++ lit "last" ++ ws1) ++ ds ++ ws2 ++ lit "year" ++ after)
    by (rewrite <- !app_assoc; reflexivity).
  replace (List.length before + 4 + List.length ws1)
    with (List.length (before ++ lit "last" ++ ws1))
    by (rewrite !length_app; simpl; lia).
  rewrite slice_middle. rewrite <- !app_assoc. auto 10.
Qed.

(** Where the phrase occurs, [re.search] finds a match. *)
Lemma re_search_last_complete (s digits : str) :
  last_phrase s digits -> exists m, re_search last_re s = Some m.
Proof.
  intros [before [ws1 [ws2 [after [-> [N1 [A1 [N2 [A2 [N3 A3]]]]]]]]]].
  unfold re_search. apply search_from_complete.
  intros p. apply run_last_complete; assumption.
Qed.

(** [re.findall] returns a year only where a word-bounded token occurs. *)
Lemma re_findall_year_sound (s : str) :
  re_findall year_re s <> [] -> year_token s.
Proof.
  unfold re_findall.
  destruct (findall_from year_re s None s 0 0) as [|m l] eqn:F;
    [simpl; congruence|]. intros _.
  assert (Hin : In m (findall_from year_re s (last_char []) s
                        (List.length (@nil N)) 0)).
  { change (last_char []) with (@None N). simpl List.length.
    rewrite F. left. reflexivity. }
  apply findall_from_sound in Hin; [|reflexivity].
  destruct Hin as [before [t [e [g [Hs [R _]]]]]].
  apply run_year_sound in R as [d1 [d2 [after [-> [D1 [D2 [B1 [B2 _]]]]]]]].
  exists before, d1, d2, after. auto.
Qed.


Lemma findall_from_complete (r : regex) (subject t : str) :
  forall before pre,
  (exists x,
     run r (last_char (pre ++ before)) t (List.length (pre ++ before))
       (List.length (pre ++ before), List.length (pre ++ before)) = Some x) ->
  findall_from r subject (last_char pre) (before ++ t) (List.length pre) 0
  <> [].
Proof.
  induction before as [|c before IH]; intros pre [[e g] R].
  - rewrite app_nil_r in R. simpl. destruct t; simpl; rewrite R; discriminate.
  - simpl.
    destruct (run r (last_char pre) (c :: before ++ t) _ _) as [[e' g']|];
      [discriminate|].
    specialize (IH (pre ++ [c])). rewrite last_char_snoc in IH.
    replace (List.length (pre ++ [c])) with (S (List.length pre)) in IH
      by (rewrite length_app; simpl; lia).
    apply IH. rewrite <- app_assoc. simpl. eauto.
Qed.

Lemma run_year_complete (prev : option N) (d1 d2 : N) (after : str)
    (pos : nat) (g0 : nat * nat) :
  is_digit d1 = true -> is_digit d2 = true ->
  xorb (word_before prev) (is_word 50) = true ->
  xorb (is_word d2) (word_after after) = true ->
  exists x, run year_re prev (lit "20" ++ [d1; d2] ++ after) pos g0 = Some x.
Proof.
  intros D1 D2 B1 B2.
  expand_re. cbn [run app word_after one atom_ok word_before].
  change (N_of_ascii "2") with 50%N.
  rewrite B1, !N.eqb_refl, D1, D2, B2. eauto.
Qed.

(** Where a word-bounded token occurs, [re.findall] returns a year. *)
Lemma re_findall_year_complete (s : str) :
  year_token s -> re_findall year_re s <> [].
Proof.
  intros [before [d1 [d2 [after [-> [D1 [D2 [B1 B2]]]]]]]].
  unfold re_findall. intros E. apply map_eq_nil in E. revert E.
  apply (@findall_from_complete year_re _ _ before []).
  apply run_year_complete; assumption.
Qed.

End RegexFacts.

(** Every text [re.findall] returns for the year pattern is "20" and two
    digits. *)
Lemma re_findall_year_groups {U : Unicode} (s g : str) :
  In g (re_findall year_re s) ->
  exists d1 d2 : N,
    g = [50; 48; d1; d2]%N /\ is_digit d1 = true /\ is_digit d2 = true.
Proof.
  unfold re_findall. intros H. apply in_map_iff in H as [m [<- Hm]].
  apply (@findall_from_sound U year_re s m s [] 0) in Hm; [|reflexivity].
  destruct Hm as [before [t [e [g [Hs [R ->]]]]]].
  apply run_year_sound in R as [d1 [d2 [after [-> [D1 [D2 [_ [_ ->]]]]]]]].
  exists d1, d2. split; [|auto].
  unfold group1. cbn [m_string m_span1 fst snd]. rewrite Hs.
  change (lit "20" ++ [d1; d2] ++ after) with ([50; 48; d1; d2]%N ++ after).
  change 4%nat with (List.length [50; 48; d1; d2]%N).
  apply slice_middle.
Qed.

(** ** The years of a query *)

Lemma range_length (a b : Z) : List.length (range a b) = Z.to_nat (b - a).
Proof. unfold range. rewrite length_map, length_seq. reflexivity. Qed.

Lemma range_nth (a b : Z) (i : nat) :
  (i < Z.to_nat (b - a))%nat -> nth i (range a b) 0%Z = (a + Z.of_nat i)%Z.
Proof.
  intros Hi. unfold range. set (f := fun k : nat => (a + Z.of_nat k)%Z).
  rewrite nth_indep with (d' := f O)
    by (rewrite length_map, length_seq; exact Hi).
  rewrite map_nth, seq_nth by exact Hi. reflexivity.
Qed.

Lemma range_nonempty (a b : Z) : (a < b)%Z -> range a b <> [].
Proof.
  intros Hab E. apply (f_equal (@List.length Z)) in E.
  rewrite range_length in E. simpl in E. lia.
Qed.

Lemma range_empty (a b : Z) : (b <= a)%Z -> range a b = [].
Proof.
  intros H. unfold range. replace (Z.to_nat (b - a)) with O by lia.
  reflexivity.
Qed.

Lemma map_outcome_return (A B : Type) (f : A -> outcome B) (g : A -> B)
    (l : list A) :
  (forall x, In x l -> f x = Return (g x)) ->
  map_outcome f l = Return (List.map g l).
Proof.
  induction l as [|x l IH]; intros H; simpl; [reflexivity|].
  rewrite (H x) by (left; reflexivity). cbn [and_then].
  rewrite IH by (intros y Hy; apply H; right; exact Hy). reflexivity.
Qed.

(** [int] accepts a text within the limit on digits. *)
Lemma py_int_return {U : Unicode} {L : Limits} (s : str) :
  int_max_str_digits = 0%nat \/ (List.length s <= int_max_str_digits)%nat ->
  py_int s = Return (int_of_str s).
Proof.
  unfold py_int. intros [-> | H]; [reflexivity|].
  apply Nat.ltb_ge in H. rewrite H, andb_false_r. reflexivity.
Qed.

(** [int] refuses a text beyond the limit on digits. *)
Lemma py_int_raise {U : Unicode} {L : Limits} (s : str) :
  int_max_str_digits <> 0%nat ->
  (int_max_str_digits < List.length s)%nat ->
  py_int s = Raise (IntDigits int_max_str_digits (List.length s)).
Proof.
  unfold py_int. intros H0 H.
  apply Nat.eqb_neq in H0. apply Nat.ltb_lt in H. rewrite H0, H. reflexivity.
Qed.

(** [int] accepts every text of at most 640 digits, whatever the limit. *)
Lemma py_int_short {U : Unicode} {L : Limits} (s : str) :
  (List.length s <= 640)%nat -> py_int s = Return (int_of_str s).
Proof.
  intros H. apply py_int_return.
  destruct int_max_str_digits_valid as [E | E]; [left; exact E | right; lia].
Qed.

Lemma list_range_return {L : Limits} (a b : Z) :
  (Z.max 0 (b - a) <= maxsize)%Z -> (Z.max 0 (b - a) <= list_capacity)%Z ->
  list_range a b = Return (range a b).
Proof.
  unfold list_range. intros H1 H2.
  apply Z.ltb_ge in H1, H2. rewrite H1, H2. reflexivity.
Qed.

(** The explicit years never raise: a token has four digits. *)
Lemma explicit_years_return {U : Unicode} {L : Limits} (query : str) :
  map_outcome py_int (re_findall year_re query)
  = Return (List.map int_of_str (re_findall year_re query)).
Proof.
  apply map_outcome_return. intros g Hg.
  apply re_findall_year_groups in Hg as [d1 [d2 [-> _]]].
  apply py_int_short. simpl. lia.
Qed.

Lemma years_found_none {U : Unicode} {L : Limits} (query : str) :
  re_search last_re (str_lower query) = None ->
  years_found query
  = Return (List.map int_of_str (re_findall year_re query)).
Proof.
  unfold years_found. intros ->. rewrite explicit_years_return. reflexivity.
Qed.

Lemma years_found_last {U : Unicode} {L : Limits} (query : str) (m : Match) :
  re_search last_re (str_lower query) = Some m ->
  years_found query
  = (let! n := py_int (group1 m) in list_range (2023 - n + 1) (2023 + 1)).
Proof.
  unfold years_found. intros ->. rewrite explicit_years_return. reflexivity.
Qed.

Lemma extract_years_default {U : Unicode} {L : Limits} (query : str) :
  years_found query = Return [] ->
  extract_years query = Return fallback_years.
Proof. unfold extract_years. intros ->. reflexivity. Qed.

Lemma extract_years_found {U : Unicode} {L : Limits} (query : str)
    (years : list Z) :
  years_found query = Return years -> years <> [] ->
  extract_years query = Return years.
Proof.
  unfold extract_years. intros -> H. cbn [and_then].
  destruct years; [congruence | reflexivity].
Qed.

(** What [extract_years] returns is never empty. *)
Lemma extract_years_cons {U : Unicode} {L : Limits} (query : str)
    (years : list Z) :
  extract_years query = Return years -> exists y ys, years = y :: ys.
Proof.
  unfold extract_years, fallback_years.
  destruct (years_found query) as [found | e]; cbn [and_then];
    [|discriminate].
  intros H. inversion H. destruct found; eauto.
Qed.

(** [extract_years] raises what [years_found] raises. *)
Lemma extract_years_raise {U : Unicode} {L : Limits} (query : str) (e : exn) :
  extract_years query = Raise e <-> years_found query = Raise e.
Proof.
  unfold extract_years. destruct (years_found query); cbn [and_then];
    split; intros H; (discriminate || exact H).
Qed.

(** C2, as the code has it: when "last N years" (or "last N year")
    matches in the lower-cased query and the number N of the leftmost match
    is at least 1 and within what [int] and [list(range(...))] accept (its
    digits within the limit of [int], N at most [sys.maxsize] and a list of
    N years within the memory), [extract_years] returns the N consecutive
    years that end with 2023, in ascending order, whatever explicit years
    the text holds. *)
Theorem extract_years_last_n {U : Unicode} {L : Limits} (query : str)
    (m : Match) :
  re_search last_re (str_lower query) = Some m ->
  int_max_str_digits = 0%nat \/
  (List.length (group1 m) <= int_max_str_digits)%nat ->
  (1 <= int_of_str (group1 m))%Z ->
  (int_of_str (group1 m) <= maxsize)%Z ->
  (int_of_str (group1 m) <= list_capacity)%Z ->
  last_phrase (str_lower query) (group1 m) /\
  extract_years query
  = Return (range (2023 - int_of_str (group1 m) + 1) (2023 + 1)) /\
  List.length (range (2023 - int_of_str (group1 m) + 1) (2023 + 1))
  = Z.to_nat (int_of_str (group1 m)) /\
  forall i : nat,
    (i < Z.to_nat (int_of_str (group1 m)))%nat ->
    nth i (range (2023 - int_of_str (group1 m) + 1) (2023 + 1)) 0%Z
    = (2023 - int_of_str (group1 m) + 1 + Z.of_nat i)%Z.
Proof.
  intros Hm Hd Hn Hmax Hcap. split; [apply re_search_last_sound, Hm|].
  set (n := int_of_str (group1 m)) in *.
  split; [|split].
  - apply extract_years_found; [|apply range_nonempty; lia].
    rewrite (years_found_last _ Hm), (py_int_return _ Hd). cbn [and_then].
    fold n. apply list_range_return; lia.
  - rewrite range_length. f_equal. lia.
  - intros i Hi. apply range_nth.
    replace (2023 + 1 - (2023 - n + 1))%Z with n by lia. exact Hi.
Qed.

Lemma extract_years_last_n_witness :
  extract_years (lit "Rainfall 2001 to 2005, Last 5 Years")
  = Return [2019; 2020; 2021; 2022; 2023]%Z.
Proof.
  pose (q := lit "Rainfall 2001 to 2005, Last 5 Years").
  pose (m := {| m_string := str_lower q; m_span := (23, 35)%nat;
                m_span1 := (28, 29)%nat |}).
  assert (Hm : re_search last_re (str_lower q) = Some m)
    by (vm_compute; reflexivity).
  assert (Hd : int_max_str_digits = 0%nat \/
               (List.length (group1 m) <= int_max_str_digits)%nat)
    by (right; vm_compute; lia).
  assert (Hn : (1 <= int_of_str (group1 m))%Z) by (vm_compute; discriminate).
  assert (Hmax : (int_of_str (group1 m) <= maxsize)%Z)
    by (vm_compute; discriminate).
  assert (Hcap : (int_of_str (group1 m) <= list_capacity)%Z)
    by (vm_compute; discriminate).
  exact (proj1 (proj2 (extract_years_last_n q Hm Hd Hn Hmax Hcap))).
Defined.

(** With a number below 1 the range is empty and the default window is
    returned. *)
Lemma extract_years_last_none {U : Unicode} {L : Limits} (query : str)
    (m : Match) :
  re_search last_re (str_lower query) = Some m ->
  int_max_str_digits = 0%nat \/
  (List.length (group1 m) <= int_max_str_digits)%nat ->
  (int_of_str (group1 m) <= 0)%Z ->
  (0 <= maxsize)%Z -> (0 <= list_capacity)%Z ->
  extract_years query = Return [2020; 2021; 2022; 2023]%Z.
Proof.
  intros Hm Hd Hn Hmax Hcap. apply extract_years_default.
  rewrite (years_found_last _ Hm), (py_int_return _ Hd). cbn [and_then].
  rewrite list_range_return by lia. rewrite range_empty by lia. reflexivity.
Qed.

(** C2 as stated fails for N = 0: the phrase matches, the sequence
    2024..2023 is empty, and the default window is returned instead. *)
Lemma extract_years_last_zero :
  (exists m : Match,
     re_search last_re (str_lower (lit "last 0 years")) = Some m /\
     int_of_str (group1 m) = 0%Z) /\
  range (2023 - 0 + 1) (2023 + 1) = [] /\
  extract_years (lit "last 0 years") = Return [2020; 2021; 2022; 2023]%Z /\
  extract_years (lit "last 0 years")
  <> Return (range (2023 - 0 + 1) (2023 + 1)).
Proof.
  split; [|split; [|split]].
  - eexists. split; vm_compute; reflexivity.
  - vm_compute. reflexivity.
  - vm_compute. reflexivity.
  - vm_compute. discriminate.
Qed.

Example extract_years_last_5 :
  extract_years (lit "last 5 years")
  = Return [2019; 2020; 2021; 2022; 2023]%Z.
Proof. vm_compute. reflexivity. Qed.

Example extract_years_explicit :
  extract_years (lit "data from 2019 and 2021") = Return [2019; 2021]%Z.
Proof. vm_compute. reflexivity. Qed.

Example extract_years_word_bounded :
  extract_years (lit "x2019 2020s 20211 (2022) 1999 2100")
  = Return [2022]%Z.
Proof. vm_compute. reflexivity. Qed.

(** A number beyond [sys.maxsize], or of more digits than [int] takes,
    makes [extract_years] raise. *)
Example extract_years_too_many :
  extract_years (lit "last 9223372036854775807 years") = Raise MemoryError /\
  extract_years (lit "last 9223372036854775808 years") = Raise OverflowError.
Proof. split; vm_compute; reflexivity. Qed.

(** C3 as stated fails where the number of the phrase is too large: the
    phrase matches with N = 99999999999999999999, [list(range(...))]
    raises, and [extract_years] returns no list at all. *)
Lemma extract_years_huge_number :
  (exists m : Match,
     re_search last_re (str_lower (lit "last 99999999999999999999 years"))
     = Some m /\
     int_of_str (group1 m) = 99999999999999999999%Z) /\
  extract_years (lit "last 99999999999999999999 years")
  = Raise OverflowError /\
  forall years : list Z,
    extract_years (lit "last 99999999999999999999 years") <> Return years.
Proof.
  split; [|split].
  - eexists. split; vm_compute; reflexivity.
  - vm_compute. reflexivity.
  - intros years. vm_compute. discriminate.
Qed.

(** C3, as the code has it: a list [extract_years] returns is never
    empty; it returns the default window 2020..2023 when the text holds
    neither a word-bounded "20dd" token nor a "last N years" phrase, and
    whenever the years computed are none, as for "last 0 years"; it
    raises only where a "last N years" phrase occurs. *)
Theorem extract_years_nonempty {U : Unicode} {L : Limits} (query : str) :
  (forall years : list Z, extract_years query = Return years -> years <> []) /\
  (~ year_token query ->
   ~ (exists digits, last_phrase (str_lower query) digits) ->
   extract_years query = Return [2020; 2021; 2022; 2023]%Z) /\
  (years_found query = Return [] ->
   extract_years query = Return [2020; 2021; 2022; 2023]%Z) /\
  (forall e : exn,
     extract_years query = Raise e ->
     exists digits, last_phrase (str_lower query) digits).
Proof.
  split; [|split; [|split]].
  - intros years H. apply extract_years_cons in H as [y [ys ->]].
    discriminate.
  - intros Hy Hl. apply extract_years_default.
    destruct (re_search last_re (str_lower query)) as [m|] eqn:S.
    + exfalso. apply Hl. exists (group1 m).
      apply re_search_last_sound, S.
    + rewrite (years_found_none _ S).
      destruct (re_findall year_re query) eqn:F; [reflexivity|].
      exfalso. apply Hy, re_findall_year_sound. rewrite F. discriminate.
  - apply extract_years_default.
  - intros e H. apply extract_years_raise in H.
    destruct (re_search last_re (str_lower query)) as [m|] eqn:S.
    + exists (group1 m). apply re_search_last_sound, S.
    + rewrite (years_found_none _ S) in H. discriminate.
Qed.

Lemma extract_years_nonempty_witness :
  extract_years (lit "tell me about crops")
  = Return [2020; 2021; 2022; 2023]%Z /\
  extract_years (lit "last 0 years") = Return [2020; 2021; 2022; 2023]%Z.
Proof.
  split.
  - apply (proj1 (proj2 (extract_years_nonempty (lit "tell me about crops")))).
    + intros H. apply re_findall_year_complete in H. apply H.
      vm_compute. reflexivity.
    + intros [digits H]. apply re_search_last_complete in H as [m H].
      vm_compute in H. discriminate.
  - apply (proj1 (proj2 (proj2
             (extract_years_nonempty (lit "last 0 years"))))).
    vm_compute. reflexivity.
Defined.

(** ** The handlers *)





Lemma py_max_nonempty (l : list Z) :
  l <> [] -> exists m, py_max l = Return m.
Proof. destruct l; [congruence | simpl; eauto]. Qed.

Lemma py_min_nonempty (l : list Z) :
  l <> [] -> exists m, py_min l = Return m.
Proof. destruct l; [congruence | simpl; eauto]. Qed.

(** C5: with fewer than two states the rainfall-comparison handler, and
    with no state or no crop the production-extremes handler, returns
    normally a result whose answer starts with the warning marker, whose
    sources are the empty list, and which has no metadata. *)
Theorem handlers_warn_on_missing_entities :
  (forall (states : list str) (years : list Z),
     (List.length states < 2)%nat ->
     exists (d : dict) (answer : str),
       handle_rainfall_comparison states years = Return d /\
       get (lit "answer") d = Some (VStr answer) /\
       startswith answer warning_marker = true /\
       get (lit "sources") d = Some (VList []) /\
       get (lit "metadata") d = None) /\
  (forall (states crops : list str) (years : list Z),
     states = [] \/ crops = [] ->
     exists (d : dict) (answer : str),
       handle_production_extremes states crops years = Return d /\
       get (lit "answer") d = Some (VStr answer) /\
       startswith answer warning_marker = true /\
       get (lit "sources") d = Some (VList []) /\
       get (lit "metadata") d = None).
Proof.
  split.
  - intros states years Hlen. unfold handle_rainfall_comparison.
    apply Nat.ltb_lt in Hlen. rewrite Hlen.
    do 2 eexists. repeat split; reflexivity.
  - intros states crops years H. unfold handle_production_extremes.
    assert (E : is_empty states || is_empty crops = true).
    { apply orb_true_iff. rewrite !is_empty_nil. exact H. }
    rewrite E. do 2 eexists. repeat split; reflexivity.
Qed.

Lemma handlers_warn_on_missing_entities_witness :
  (exists (d : dict) (answer : str),
     handle_rainfall_comparison [lit "Punjab"] [2023%Z] = Return d /\
     get (lit "answer") d = Some (VStr answer) /\
     startswith answer warning_marker = true /\
     get (lit "sources") d = Some (VList []) /\
     get (lit "metadata") d = None) /\
  (exists (d : dict) (answer : str),
     handle_production_extremes [lit "Punjab"] [] [2023%Z] = Return d /\
     get (lit "answer") d = Some (VStr answer) /\
     startswith answer warning_marker = true /\
     get (lit "sources") d = Some (VList []) /\
     get (lit "metadata") d = None).
Proof.
  split.
  - apply (proj1 handlers_warn_on_missing_entities). simpl. lia.
  - apply (proj2 handlers_warn_on_missing_entities). right. reflexivity.
Defined.


Example production_extremes_single_state_run :
  handle_production_extremes [lit "Punjab"] [lit "Wheat"; lit "Rice"]
    [2021; 2023; 2022]%Z
  = Return [
      (lit "answer", VStr (lit "**Production Analysis: Wheat (2023)**" ++ nl ++ nl));
      (lit "sources", VList [
         VDict [
           (lit "dataset", VStr (lit "District-wise Crop Production Statistics"));
           (lit "source",
            VStr (lit "Ministry of Agriculture & Farmers Welfare, Directorate of Economics and Statistics"));
           (lit "url", VStr crop_statistics_url);
           (lit "resource_id", VStr (lit "9ef84268-d588-465a-a308-a864a43d0070")) ] ]);
      (lit "metadata", VDict [
         (lit "states", strs [lit "Punjab"]);
         (lit "crops", strs [lit "Wheat"; lit "Rice"]);
         (lit "year", VInt 2023) ]) ].
Proof. vm_compute. reflexivity. Qed.

(** ** answer_query *)

(** Where [extract_years] returns, one call prints the two information
    lines and returns what the handler of the dispatch table returns. *)
Lemma answer_query_returned {U : Unicode} {L : Limits} (query : str)
    (years : list Z) (w : World) :
  extract_years query = Return years ->
  answer_query query w
  = (call (dispatch (classify_query query)) query (extract_states query)
       (extract_crops query) years,
     {| stdout :=
          (stdout w ++ [lit "[INFO] Query type: " ++ classify_query query])
          ++ [lit "[INFO] States: "
              ++ str_of_list repr_name (extract_states query)
              ++ lit ", Crops: "
              ++ str_of_list repr_name (extract_crops query)
              ++ lit ", Years: "
              ++ str_of_list str_of_int years] |}).
Proof.
  intros Hy. unfold answer_query, dispatch, bind, print, lift. rewrite Hy.
  cbn [stdout].
  generalize (classify_query query) (extract_states query)
    (extract_crops query).
  intros query_type states crops.
  destruct (str_eqb query_type (lit "rainfall_comparison")); [reflexivity|].
  destruct (str_eqb query_type (lit "production_extremes")); [reflexivity|].
  destruct (str_eqb query_type (lit "production_query")); reflexivity.
Qed.

(** Where [extract_years] raises, so does [answer_query], before it
    prints anything or calls a handler. *)
Lemma answer_query_raised {U : Unicode} {L : Limits} (query : str) (e : exn)
    (w : World) :
  extract_years query = Raise e -> answer_query query w = (Raise e, w).
Proof.
  intros Hy. unfold answer_query, bind, lift. rewrite Hy. reflexivity.
Qed.

Example answer_query_prints :
  stdout (snd (answer_query
                 (lit "Compare rainfall in Punjab and Haryana for last 2 years")
                 {| stdout := [] |}))
  = [ lit "[INFO] Query type: rainfall_comparison";
      lit "[INFO] States: ['Punjab', 'Haryana'], Crops: [], Years: [2022, 2023]" ].
Proof. vm_compute. reflexivity. Qed.

Lemma two_members (A : Type) (l : list A) (x y : A) :
  In x l -> In y l -> x <> y -> (2 <= List.length l)%nat.
Proof.
  destruct l as [|a [|b l]]; simpl; intros Hx Hy Hxy.
  - tauto.
  - exfalso. apply Hxy. destruct Hx as [<- | []], Hy as [<- | []]. reflexivity.
  - lia.
Qed.

(** With two states or more and some year, the comparison handler returns
    two citation records and the metadata of the states and years. *)
Lemma rainfall_comparison_result (states : list str) (years : list Z) :
  (2 <= List.length states)%nat -> years <> [] ->
  exists (answer : str) (c1 c2 : value),
    handle_rainfall_comparison states years
    = Return [
        (lit "answer", VStr answer);
        (lit "sources", VList [c1; c2]);
        (lit "metadata", VDict [
           (lit "states", strs states);
           (lit "years", ints years);
           (lit "query_type", VStr (lit "rainfall_comparison")) ]) ].
Proof.
  intros Hlen Hy. unfold handle_rainfall_comparison.
  assert (E : (List.length states <? 2) = false) by (apply Nat.ltb_ge, Hlen).
  rewrite E.
  destruct (py_min_nonempty Hy) as [lo ->].
  destruct (py_max_nonempty Hy) as [hi ->].
  cbn [and_then]. do 3 eexists. reflexivity.
Qed.

(** C4, as the code has it: a query that mentions two distinct canonical
    states and contains "compare" and "rainfall" (in any case, anywhere)
    is classified [rainfall_comparison], and where [extract_years] returns
    on it [answer_query] returns a result with exactly two citation
    records and a non-empty metadata whose [states] hold both names. *)
Theorem answer_query_rainfall_comparison {U : Unicode} {L : Limits}
    (query s1 s2 : str) (years : list Z) (w : World) :
  In s1 STATES -> In s2 STATES -> s1 <> s2 ->
  mentions query s1 = true -> mentions query s2 = true ->
  str_in (lit "compare") (str_lower query) = true ->
  str_in (lit "rainfall") (str_lower query) = true ->
  extract_years query = Return years ->
  classify_query query = lit "rainfall_comparison" /\
  exists (d : dict) (w' : World) (c1 c2 : value) (metadata : dict)
         (states : list str),
    answer_query query w = (Return d, w') /\
    get (lit "sources") d = Some (VList [c1; c2]) /\
    get (lit "metadata") d = Some (VDict metadata) /\
    metadata <> [] /\
    get (lit "states") metadata = Some (strs states) /\
    In s1 states /\ In s2 states.
Proof.
  intros H1 H2 Hne M1 M2 Hc Hr Hy.
  assert (Hq : classify_query query = lit "rainfall_comparison").
  { unfold classify_query. rewrite Hc, Hr. reflexivity. }
  split; [exact Hq|].
  assert (I1 : In s1 (extract_states query)).
  { rewrite extract_states_filter. apply filter_In. auto. }
  assert (I2 : In s2 (extract_states query)).
  { rewrite extract_states_filter. apply filter_In. auto. }
  destruct (extract_years_cons _ Hy) as [y [ys Hys]].
  destruct (@rainfall_comparison_result (extract_states query) years)
    as [answer [c1 [c2 Hres]]].
  { exact (@two_members _ _ _ _ I1 I2 Hne). }
  { rewrite Hys. discriminate. }
  rewrite (answer_query_returned _ w Hy), Hq.
  change (dispatch (lit "rainfall_comparison")) with RainfallComparison.
  cbn [call]. rewrite Hres.
  eexists _, _, c1, c2, _, (extract_states query).
  split; [reflexivity|].
  split; [reflexivity|].
  split; [reflexivity|].
  split; [discriminate|].
  split; [reflexivity|]. auto.
Qed.

Lemma answer_query_rainfall_comparison_witness :
  classify_query (lit "rainfall of Kerala: COMPARE with punjab") 
  = lit "rainfall_comparison" /\
  exists (d : dict) (w' : World) (c1 c2 : value) (metadata : dict)
         (states : list str),
    answer_query (lit "rainfall of Kerala: COMPARE with punjab")
      {| stdout := [] |} = (Return d, w') /\
    get (lit "sources") d = Some (VList [c1; c2]) /\
    get (lit "metadata") d = Some (VDict metadata) /\
    metadata <> [] /\
    get (lit "states") metadata = Some (strs states) /\
    In (lit "Kerala") states /\ In (lit "Punjab") states.
Proof.
  apply (@answer_query_rainfall_comparison python_latin1 cpython_64bit
           (lit "rainfall of Kerala: COMPARE with punjab")
           (lit "Kerala") (lit "Punjab") [2020; 2021; 2022; 2023]%Z).
  - vm_compute. tauto.
  - vm_compute. tauto.
  - vm_compute. discriminate.
  - vm_compute. reflexivity.
  - vm_compute. reflexivity.
  - vm_compute. reflexivity.
  - vm_compute. reflexivity.
  - vm_compute. reflexivity.
Defined.

(** C4 as stated fails where [extract_years] raises: the query below
    mentions two states and holds "compare" and "rainfall", and
    [answer_query] raises without printing or calling a handler. *)
Lemma answer_query_rainfall_comparison_huge :
  In (lit "Punjab") STATES /\ In (lit "Kerala") STATES /\
  mentions
    (lit "compare rainfall punjab kerala last 99999999999999999999 years")
    (lit "Punjab") = true /\
  mentions
    (lit "compare rainfall punjab kerala last 99999999999999999999 years")
    (lit "Kerala") = true /\
  classify_query
    (lit "compare rainfall punjab kerala last 99999999999999999999 years")
  = lit "rainfall_comparison" /\
  answer_query
    (lit "compare rainfall punjab kerala last 99999999999999999999 years")
    {| stdout := [] |}
  = (Raise OverflowError, {| stdout := [] |}).
Proof.
  repeat split; vm_compute; tauto.
Qed.

(** Given some year, every handler returns, and its answer shows which
    handler it is. *)
Lemma call_owner (h : handler) (query : str) (states crops : list str)
    (years : list Z) :
  years <> [] ->
  exists (d : dict) (answer : str),
    call h query states crops years = Return d /\
    get (lit "answer") d = Some (VStr answer) /\
    owner answer = h.
Proof.
  intros Hy.
  destruct (py_min_nonempty Hy) as [lo Hlo].
  destruct (py_max_nonempty Hy) as [hi Hhi].
  assert (Hne : is_empty years = false)
    by (destruct years; [congruence | reflexivity]).
  destruct h; cbn [call].
  - unfold handle_rainfall_comparison. rewrite Hlo, Hhi. cbn [and_then].
    destruct (List.length states <? 2); do 2 eexists;
      (split; [reflexivity | split; reflexivity]).
  - unfold handle_production_extremes. rewrite Hne, Hhi. cbn [and_then].
    destruct (is_empty states || is_empty crops).
    + do 2 eexists. split; [reflexivity | split; reflexivity].
    + destruct (2 <=? List.length states); do 2 eexists;
        (split; [reflexivity | split; reflexivity]).
  - unfold handle_production_query. rewrite Hne, Hlo, Hhi. cbn [and_then].
    destruct (is_empty states), (is_empty crops); do 2 eexists;
      (split; [reflexivity | split; reflexivity]).
  - unfold handle_general. do 2 eexists.
    split; [reflexivity | split; reflexivity].
Qed.

Lemma call_injective (h h' : handler) (query : str) (states crops : list str)
    (years : list Z) :
  years <> [] ->
  call h' query states crops years = call h query states crops years ->
  h' = h.
Proof.
  intros Hy E.
  destruct (call_owner h query states crops Hy) as [d [a [Hd [Ha Ho]]]].
  destruct (call_owner h' query states crops Hy) as [d' [a' [Hd' [Ha' Ho']]]].
  rewrite Hd, Hd' in E. inversion E; subst d'.
  rewrite Ha in Ha'. inversion Ha'; subst a'. congruence.
Qed.

(** A handler raises nothing but the [ValueError] of [min] and [max]. *)
Lemma call_raises_value_error (h : handler) (query : str)
    (states crops : list str) (years : list Z) (e : exn) :
  call h query states crops years = Raise e -> e = ValueError.
Proof.
  destruct years as [|y years].
  - destruct h; cbn [call].
    + unfold handle_rainfall_comparison.
      destruct (List.length states <? 2); cbn [py_min and_then]; congruence.
    + unfold handle_production_extremes.
      destruct (is_empty states || is_empty crops);
        cbn [is_empty and_then]; discriminate.
    + unfold handle_production_query. cbn [is_empty and_then]. discriminate.
    + unfold handle_general. discriminate.
  - intros H.
    destruct (@call_owner h query states crops (y :: years))
      as [d [_ [Hd _]]]; [discriminate|].
    rewrite Hd in H. discriminate.
Qed.

Lemma answer_query_returns {U : Unicode} {L : Limits} (query : str)
    (years : list Z) (w : World) :
  extract_years query = Return years ->
  exists d : dict, fst (answer_query query w) = Return d.
Proof.
  intros Hy. rewrite (answer_query_returned _ w Hy). cbn [fst].
  destruct (extract_years_cons _ Hy) as [y [ys Hys]].
  destruct (@call_owner (dispatch (classify_query query)) query
              (extract_states query) (extract_crops query) years)
    as [d [_ [Hd _]]].
  { rewrite Hys. discriminate. }
  eauto.
Qed.

(** C8, as the code has it: where [extract_years] returns, [answer_query]
    returns what the handler of the dispatch table returns on the
    entities of the query: the comparison, extremes and production labels
    go to their handlers, every other label ([trend_analysis] and
    [rainfall_query] among them) to the general handler; the result is
    that of this handler and of no other.  Where [extract_years] raises,
    [answer_query] raises the same, with nothing printed and no handler
    called. *)
Theorem answer_query_dispatch {U : Unicode} {L : Limits} (query : str)
    (w : World) :
  (forall years : list Z,
     extract_years query = Return years ->
     fst (answer_query query w)
     = call (dispatch (classify_query query)) query (extract_states query)
         (extract_crops query) years /\
     forall h : handler,
       call h query (extract_states query) (extract_crops query) years
       = fst (answer_query query w) ->
       h = dispatch (classify_query query)) /\
  (forall e : exn,
     extract_years query = Raise e ->
     answer_query query w = (Raise e, w)) /\
  In (classify_query query) labels /\
  labels = [ lit "rainfall_comparison"; lit "production_extremes";
             lit "trend_analysis"; lit "rainfall_query";
             lit "production_query"; lit "general" ] /\
  List.map dispatch labels
  = [ RainfallComparison; ProductionExtremes; General; General;
      ProductionQuery; General ].
Proof.
  split; [|split].
  - intros years Hy. rewrite (answer_query_returned _ w Hy). cbn [fst].
    split; [reflexivity|].
    intros h E. destruct (extract_years_cons _ Hy) as [y [ys Hys]].
    eapply call_injective; [|exact E]. rewrite Hys. discriminate.
  - intros e Hy. apply answer_query_raised, Hy.
  - split; [apply classify_query_label|].
    split; vm_compute; reflexivity.
Qed.

Lemma answer_query_dispatch_witness :
  fst (answer_query (lit "wheat trend in Punjab") {| stdout := [] |})
  = call General (lit "wheat trend in Punjab") [lit "Punjab"] [lit "Wheat"]
      [2020; 2021; 2022; 2023]%Z.
Proof.
  apply (proj1 (proj1 (@answer_query_dispatch python_latin1 cpython_64bit
                         (lit "wheat trend in Punjab") {| stdout := [] |})
                  [2020; 2021; 2022; 2023]%Z eq_refl)).
Defined.

(** C8 as stated fails where [extract_years] raises: the query below is
    classified, and [answer_query] raises what no handler raises, with
    nothing printed. *)
Lemma answer_query_no_handler :
  classify_query (lit "rainfall trend, last 99999999999999999999 years")
  = lit "trend_analysis" /\
  answer_query (lit "rainfall trend, last 99999999999999999999 years")
    {| stdout := [] |}
  = (Raise OverflowError, {| stdout := [] |}) /\
  forall (h : handler) (years : list Z),
    call h (lit "rainfall trend, last 99999999999999999999 years")
      (extract_states (lit "rainfall trend, last 99999999999999999999 years"))
      (extract_crops (lit "rainfall trend, last 99999999999999999999 years"))
      years
    <> Raise OverflowError.
Proof.
  split; [vm_compute; reflexivity|].
  split; [vm_compute; reflexivity|].
  intros h years H. apply call_raises_value_error in H. discriminate.
Qed.

(** The context line of the general answer ends with the years. *)
Lemma general_context_years (states crops : list str) (years : list Z) :
  years <> [] ->
  exists before : str,
    general_context states crops years
    = before ++ lit "Years: " ++ join (lit ", ") (List.map str_of_int years).
Proof.
  intros Hy. unfold general_context.
  assert (Hne : is_empty years = false)
    by (destruct years; [congruence | reflexivity]).
  rewrite Hne.
  set (Y := lit "Years: " ++ join (lit ", ") (List.map str_of_int years)).
  destruct (is_empty states), (is_empty crops); cbn [app is_empty join].
  - exists []. reflexivity.
  - eexists. rewrite app_assoc. reflexivity.
  - eexists. rewrite app_assoc. reflexivity.
  - eexists. rewrite !app_assoc. reflexivity.
Qed.

(** C10: when [answer_query] reaches the general handler, that is when
    [extract_years] has returned and the label goes to the general
    handler, the context line of the answer ends with the "Years: "
    segment of the years of the query, which are never none, and is never
    the text "General inquiry". *)
Theorem general_answer_has_years {U : Unicode} {L : Limits} (query : str)
    (years : list Z) (w : World) :
  extract_years query = Return years ->
  dispatch (classify_query query) = General ->
  exists (d : dict) (context before : str),
    fst (answer_query query w) = Return d /\
    get (lit "answer") d
    = Some (VStr (lit "**Agricultural Data Analysis Request**" ++ nl ++ nl
                  ++ lit "**Detected Context:** " ++ context ++ nl ++ nl
                  ++ general_help)) /\
    context
    = before ++ lit "Years: "
      ++ join (lit ", ") (List.map str_of_int years) /\
    years <> [] /\
    str_in (lit "Years: ") context = true /\
    context <> lit "General inquiry".
Proof.
  intros Hy Hg. rewrite (answer_query_returned _ w Hy), Hg. cbn [fst call].
  destruct (extract_years_cons _ Hy) as [y [ys Hys]].
  assert (Hne : years <> []) by (rewrite Hys; discriminate).
  destruct (general_context_years (extract_states query)
              (extract_crops query) Hne) as [before Hb].
  assert (Hin : str_in (lit "Years: ")
                  (general_context (extract_states query)
                     (extract_crops query) years) = true).
  { apply str_in_substring. eexists before, _. exact Hb. }
  eexists _, _, before.
  split; [reflexivity|].
  split; [reflexivity|].
  split; [exact Hb|].
  split; [exact Hne|].
  split; [exact Hin|].
  intros E. rewrite E in Hin. vm_compute in Hin. discriminate.
Qed.

Lemma general_answer_has_years_witness :
  exists (d : dict) (context before : str),
    fst (answer_query (lit "hello Assam") {| stdout := [] |}) = Return d /\
    get (lit "answer") d
    = Some (VStr (lit "**Agricultural Data Analysis Request**" ++ nl ++ nl
                  ++ lit "**Detected Context:** " ++ context ++ nl ++ nl
                  ++ general_help)) /\
    context
    = before ++ lit "Years: "
      ++ join (lit ", ")
           (List.map str_of_int [2020; 2021; 2022; 2023]%Z) /\
    [2020; 2021; 2022; 2023]%Z <> [] /\
    str_in (lit "Years: ") context = true /\
    context <> lit "General inquiry".
Proof.
  apply (@general_answer_has_years python_latin1 cpython_64bit
           (lit "hello Assam") [2020; 2021; 2022; 2023]%Z).
  - vm_compute. reflexivity.
  - vm_compute. reflexivity.
Defined.

Example general_context_run :
  general_context (extract_states (lit "hello Assam"))
    (extract_crops (lit "hello Assam")) [2020; 2021; 2022; 2023]%Z
  = lit "States: Assam | Years: 2020, 2021, 2022, 2023".
Proof. vm_compute. reflexivity. Qed.

(** Called with no entity at all, which [answer_query] never does, the
    general handler does produce the default text. *)
Example general_context_default :
  general_context [] [] [] = lit "General inquiry".
Proof. vm_compute. reflexivity. Qed.

(** * More of the handlers and the endpoints *)

(** ** The handlers, called directly *)




(** X4: the answer text of the comparison handler uses the first two
    states only, and that of the extremes handler the first two states and
    the first crop only: further states and crops change nothing in it. *)
Theorem answers_use_first_entities (s1 s2 c : str)
    (more_states more_crops : list str) (years : list Z) :
  answer_of (handle_rainfall_comparison (s1 :: s2 :: more_states) years)
  = answer_of (handle_rainfall_comparison [s1; s2] years) /\
  answer_of (handle_production_extremes (s1 :: s2 :: more_states)
               (c :: more_crops) years)
  = answer_of (handle_production_extremes [s1; s2] [c] years).
Proof.
  split.
  - unfold handle_rainfall_comparison.
    change (List.length (s1 :: s2 :: more_states) <? 2) with false.
    change (List.length [s1; s2] <? 2) with false. cbv iota.
    destruct (py_min years); [|reflexivity].
    destruct (py_max years); reflexivity.
  - unfold handle_production_extremes.
    cbn [is_empty orb].
    destruct (if is_empty years then Return 2023%Z else py_max years);
      reflexivity.
Qed.


Ltac closed_strings_differ H :=
  apply str_eqb_eq in H; vm_compute in H; discriminate H.

Lemma dispatch_rainfall (query_type : str) :
  dispatch query_type = RainfallComparison
  <-> query_type = lit "rainfall_comparison".
Proof.
  unfold dispatch.
  destruct (str_eqb query_type (lit "rainfall_comparison")) eqn:E1.
  - apply str_eqb_eq in E1. tauto.
  - apply str_eqb_neq in E1.
    destruct (str_eqb query_type (lit "production_extremes"));
      [|destruct (str_eqb query_type (lit "production_query"))];
      (split; [discriminate | tauto]).
Qed.

Lemma dispatch_extremes (query_type : str) :
  dispatch query_type = ProductionExtremes
  <-> query_type = lit "production_extremes".
Proof.
  unfold dispatch.
  destruct (str_eqb query_type (lit "rainfall_comparison")) eqn:E1.
  - apply str_eqb_eq in E1. subst. split; [discriminate|].
    intros H. closed_strings_differ H.
  - destruct (str_eqb query_type (lit "production_extremes")) eqn:E2.
    + apply str_eqb_eq in E2. tauto.
    + apply str_eqb_neq in E2.
      destruct (str_eqb query_type (lit "production_query"));
        (split; [discriminate | tauto]).
Qed.

(** ** Results of answer_query *)

(** X5: where [extract_years] returns, so that [answer_query] reaches a
    handler, it returns an answer text and a list of sources; the sources
    are empty exactly when the answer begins with the warning marker,
    which is exactly for a comparison with fewer than two states or an
    extremes query with no state or no crop; and the result has no
    metadata exactly then or when the label is neither
    [rainfall_comparison] nor [production_extremes]. *)
Theorem answer_query_warning_iff {U : Unicode} {L : Limits} (query : str)
    (years : list Z) (w : World) :
  extract_years query = Return years ->
  exists (d : dict) (answer : str) (sources : list value),
    fst (answer_query query w) = Return d /\
    get (lit "answer") d = Some (VStr answer) /\
    get (lit "sources") d = Some (VList sources) /\
    (sources = [] <-> startswith answer warning_marker = true) /\
    (sources = [] <->
     classify_query query = lit "rainfall_comparison" /\
     (List.length (extract_states query) < 2)%nat \/
     classify_query query = lit "production_extremes" /\
     (extract_states query = [] \/ extract_crops query = [])) /\
    (get (lit "metadata") d = None <->
     sources = [] \/
     classify_query query <> lit "rainfall_comparison" /\
     classify_query query <> lit "production_extremes").
Proof.
  intros Hy. rewrite (answer_query_returned _ w Hy). cbn [fst].
  destruct (extract_years_cons _ Hy) as [y [ys ->]]. clear Hy.
  setoid_rewrite <- dispatch_rainfall.
  setoid_rewrite <- dispatch_extremes.
  generalize (dispatch (classify_query query)) (extract_states query)
    (extract_crops query).
  intros h states crops.
  destruct h; cbn [call].
  - unfold handle_rainfall_comparison. cbn [py_min py_max and_then].
    destruct (List.length states <? 2) eqn:E.
    + apply Nat.ltb_lt in E. do 2 eexists; exists []. 
      repeat (split; [reflexivity|]). 
      split; [split; reflexivity|]. split; split; auto.
    + apply Nat.ltb_ge in E. eexists _, _, [_; _].
      repeat (split; [reflexivity|]).
      split; [split; discriminate|].
      split; (split; [discriminate|]).
      * intros [[_ H] | [H _]]; [lia | discriminate].
      * intros [H | [H _]]; [discriminate | congruence].
  - unfold handle_production_extremes. cbn [is_empty py_max and_then].
    destruct (is_empty states || is_empty crops) eqn:E.
    + assert (H : states = [] \/ crops = []).
      { apply orb_true_iff in E. rewrite !is_empty_nil in E. exact E. }
      do 2 eexists; exists []. repeat (split; [reflexivity|]).
      split; [split; reflexivity|]. split; split; auto.
    + assert (H : ~ (states = [] \/ crops = [])).
      { rewrite <- !is_empty_nil, <- orb_true_iff, E. discriminate. }
      destruct (2 <=? List.length states);
        (eexists _, _, [_]; repeat (split; [reflexivity|]);
         split; [split; discriminate|];
         split; (split; [discriminate|]);
         [ intros [[H' _] | [_ H']]; [discriminate | tauto]
         | intros [H' | [_ H']]; [discriminate | congruence] ]).
  - unfold handle_production_query. cbn [is_empty py_min py_max and_then].
    destruct (is_empty crops), (is_empty states);
      (eexists _, _, [_]; repeat (split; [reflexivity|]);
       split; [split; discriminate|];
       split; [split; [discriminate | intros [[H _] | [H _]]; discriminate]|];
       split; [intros _; right; split; discriminate | reflexivity]).
  - unfold handle_general.
    eexists _, _, [_]. repeat (split; [reflexivity|]).
    split; [split; discriminate|].
    split; [split; [discriminate | intros [[H _] | [H _]]; discriminate]|].
    split; [intros _; right; split; discriminate | reflexivity].
Qed.

Lemma answer_query_warning_iff_witness :
  exists (d : dict) (answer : str) (sources : list value),
    fst (answer_query (lit "highest wheat output") {| stdout := [] |})
    = Return d /\
    get (lit "answer") d = Some (VStr answer) /\
    get (lit "sources") d = Some (VList sources) /\
    (sources = [] <-> startswith answer warning_marker = true) /\
    (sources = [] <->
     classify_query (lit "highest wheat output") = lit "rainfall_comparison" /\
     (List.length (extract_states (lit "highest wheat output")) < 2)%nat \/
     classify_query (lit "highest wheat output") = lit "production_extremes" /\
     (extract_states (lit "highest wheat output") = [] \/
      extract_crops (lit "highest wheat output") = [])) /\
    (get (lit "metadata") d = None <->
     sources = [] \/
     classify_query (lit "highest wheat output") <> lit "rainfall_comparison" /\
     classify_query (lit "highest wheat output") <> lit "production_extremes").
Proof.
  apply (@answer_query_warning_iff python_latin1 cpython_64bit
           (lit "highest wheat output") [2020; 2021; 2022; 2023]%Z).
  vm_compute. reflexivity.
Defined.

(** ** More on the years *)

Lemma range_bounds (a b y : Z) : In y (range a b) -> (a <= y < b)%Z.
Proof.
  unfold range. intros H. apply in_map_iff in H as [i [<- Hi]].
  apply in_seq in Hi. lia.
Qed.

(** What [list_range] returns is the range. *)
Lemma list_range_returned {L : Limits} (a b : Z) (l : list Z) :
  list_range a b = Return l -> l = range a b.
Proof.
  unfold list_range.
  destruct (maxsize <? Z.max 0 (b - a))%Z; [discriminate|].
  destruct (list_capacity <? Z.max 0 (b - a))%Z; [discriminate|].
  intros H. inversion H. reflexivity.
Qed.

(** X6: where the digit table gives the decimal digits their values, no
    year returned by [extract_years] is after 2099, and when no
    "last N years" phrase matches [extract_years] returns and every year
    returned is from 2000 to 2099. *)
Theorem extract_years_bounds {U : Unicode} {L : Limits} (query : str) :
  digit_value 50 = 2%Z -> digit_value 48 = 0%Z ->
  (forall c : N, is_digit c = true -> (0 <= digit_value c <= 9)%Z) ->
  (forall years : list Z,
     extract_years query = Return years ->
     Forall (fun y => (y <= 2099)%Z) years) /\
  (re_search last_re (str_lower query) = None ->
   exists years : list Z,
     extract_years query = Return years /\
     Forall (fun y => (2000 <= y <= 2099)%Z) years).
Proof.
  intros H2 H0 Hd.
  assert (Explicit : Forall (fun y => (2000 <= y <= 2099)%Z)
                       (List.map int_of_str (re_findall year_re query))).
  { apply Forall_forall. intros y Hy.
    apply in_map_iff in Hy as [g [<- Hg]].
    apply re_findall_year_groups in Hg as [d1 [d2 [-> [D1 D2]]]].
    unfold int_of_str. cbn [fold_left]. rewrite H2, H0.
    apply Hd in D1, D2. lia. }
  assert (Default : Forall (fun y => (2000 <= y <= 2099)%Z) fallback_years).
  { unfold fallback_years. repeat constructor; lia. }
  assert (Weaken : forall l, Forall (fun y => (2000 <= y <= 2099)%Z) l ->
                             Forall (fun y => (y <= 2099)%Z) l).
  { intros l. apply Forall_impl. intros y. lia. }
  unfold extract_years.
  destruct (re_search last_re (str_lower query)) as [m|] eqn:S.
  - split; [|discriminate].
    rewrite (years_found_last _ S).
    destruct (py_int (group1 m)) as [n|]; cbn [and_then]; [|discriminate].
    destruct (list_range (2023 - n + 1) (2023 + 1)) as [l|] eqn:R;
      cbn [and_then]; [|discriminate].
    apply list_range_returned in R. intros years H. inversion H.
    destruct l as [|y l]; [apply Weaken, Default|].
    rewrite R. apply Forall_forall. intros z Hz.
    apply range_bounds in Hz. lia.
  - rewrite (years_found_none _ S). cbn [and_then].
    destruct (List.map int_of_str (re_findall year_re query)) eqn:E.
    + split; [intros years H; inversion H; apply Weaken, Default|].
      intros _. eauto.
    + split; [intros years H; inversion H; apply Weaken, Explicit|].
      intros _. eauto.
Qed.

Lemma latin1_digit_value (c : N) :
  is_digit c = true -> (0 <= digit_value c <= 9)%Z.
Proof.
  cbn. unfold in_range. intros H. apply andb_true_iff in H as [H1 H2].
  apply N.leb_le in H1, H2. lia.
Qed.

Lemma extract_years_bounds_witness :
  exists years : list Z,
    extract_years (lit "data from 2019 and 2021") = Return years /\
    Forall (fun y => (2000 <= y <= 2099)%Z) years.
Proof.
  apply (@extract_years_bounds python_latin1 cpython_64bit
           (lit "data from 2019 and 2021")).
  - reflexivity.
  - reflexivity.
  - exact latin1_digit_value.
  - vm_compute. reflexivity.
Defined.

(** X7: the "last N years" rule decides the years exactly when the
    lower-cased query holds "last", white space, digits, white space and
    "year": the years before the default are then what
    [list(range(2023 - N + 1, 2024))] gives for N the [int] of the digits
    matched, an exception included; otherwise they are the explicit
    ones. *)
Theorem last_rule_fires_iff_phrase {U : Unicode} {L : Limits} (query : str) :
  ((exists digits : str, last_phrase (str_lower query) digits) <->
   exists m : Match,
     re_search last_re (str_lower query) = Some m /\
     last_phrase (str_lower query) (group1 m) /\
     years_found query
     = (let! n := py_int (group1 m) in
        list_range (2023 - n + 1) (2023 + 1))) /\
  ((exists digits : str, last_phrase (str_lower query) digits) \/
   years_found query
   = Return (List.map int_of_str (re_findall year_re query))).
Proof.
  split.
  - split.
    + intros [digits H]. apply re_search_last_complete in H as [m Hm].
      exists m. split; [exact Hm|]. split.
      * apply re_search_last_sound, Hm.
      * apply years_found_last, Hm.
    + intros [m [_ [H _]]]. eauto.
  - destruct (re_search last_re (str_lower query)) as [m|] eqn:S.
    + left. exists (group1 m). apply re_search_last_sound, S.
    + right. apply years_found_none, S.
Qed.

(** X8: when the query holds a word-bounded "20dd" token and no
    "last N years" phrase, [extract_years] returns the explicit years, in
    the order [re.findall] gives them, and not the default. *)
Theorem explicit_years_used {U : Unicode} {L : Limits} (query : str) :
  year_token query ->
  ~ (exists digits : str, last_phrase (str_lower query) digits) ->
  extract_years query
  = Return (List.map int_of_str (re_findall year_re query)) /\
  re_findall year_re query <> [].
Proof.
  intros Ht Hl.
  assert (F : re_findall year_re query <> [])
    by (apply re_findall_year_complete, Ht).
  split; [|exact F].
  assert (S : re_search last_re (str_lower query) = None).
  { destruct (re_search last_re (str_lower query)) as [m|] eqn:S;
      [|reflexivity].
    exfalso. apply Hl. exists (group1 m). apply re_search_last_sound, S. }
  apply extract_years_found; [apply years_found_none, S|].
  destruct (re_findall year_re query); [congruence | discriminate].
Qed.

Lemma explicit_years_used_witness :
  extract_years (lit "in 2019")
  = Return (List.map int_of_str (re_findall year_re (lit "in 2019"))) /\
  re_findall year_re (lit "in 2019") <> [].
Proof.
  apply (@explicit_years_used python_latin1 cpython_64bit (lit "in 2019")).
  - exists (lit "in "), 49%N, 57%N, []. repeat split; reflexivity.
  - intros [digits H]. apply re_search_last_complete in H as [m H].
    vm_compute in H. discriminate.
Defined.

(** X19: [extract_years] raises exactly when the number of the leftmost
    "last N years" phrase is too long for [int] (more digits than the
    limit), or else too large for [list(range(...))]: beyond
    [sys.maxsize] an [OverflowError], and otherwise beyond what there is
    room for a [MemoryError]. *)
Theorem extract_years_raises_iff {U : Unicode} {L : Limits} (query : str)
    (e : exn) :
  extract_years query = Raise e <->
  exists m : Match,
    re_search last_re (str_lower query) = Some m /\
    (int_max_str_digits <> 0%nat /\
     (int_max_str_digits < List.length (group1 m))%nat /\
     e = IntDigits int_max_str_digits (List.length (group1 m))
     \/
     (int_max_str_digits = 0%nat \/
      (List.length (group1 m) <= int_max_str_digits)%nat) /\
     (maxsize < Z.max 0 (int_of_str (group1 m)))%Z /\
     e = OverflowError
     \/
     (int_max_str_digits = 0%nat \/
      (List.length (group1 m) <= int_max_str_digits)%nat) /\
     (Z.max 0 (int_of_str (group1 m)) <= maxsize)%Z /\
     (list_capacity < Z.max 0 (int_of_str (group1 m)))%Z /\
     e = MemoryError).
Proof.
  rewrite extract_years_raise.
  destruct (re_search last_re (str_lower query)) as [m|] eqn:S.
  - assert (Ex : forall P : Match -> Prop,
               (exists m' : Match, Some m = Some m' /\ P m') <-> P m).
    { intros P. split; [|intros H; exists m; auto].
      intros [m' [Hm H]]. inversion Hm. exact H. }
    rewrite Ex. clear Ex.
    rewrite (years_found_last _ S).
    assert (N : forall n : Z, (2023 + 1 - (2023 - n + 1) = n)%Z)
      by (intros n; lia).
    unfold py_int, list_range.
    destruct (Nat.eqb_spec int_max_str_digits 0) as [Z0 | Z0];
      cbn [negb andb].
    + cbn [and_then]. rewrite N.
      destruct (Z.ltb_spec maxsize (Z.max 0 (int_of_str (group1 m))))
        as [Hs | Hs];
        [|destruct (Z.ltb_spec list_capacity
                      (Z.max 0 (int_of_str (group1 m)))) as [Hc | Hc]].
      * split; [intros E0; inversion E0; auto 10|].
        intros [[? _] | [[_ [_ ->]] | [_ [? _]]]];
          [congruence | reflexivity | lia].
      * split; [intros E0; inversion E0; auto 10|].
        intros [[? _] | [[_ [? _]] | [_ [_ [_ ->]]]]];
          [congruence | lia | reflexivity].
      * split; [discriminate|].
        intros [[? _] | [[_ [? _]] | [_ [_ [? _]]]]];
          [congruence | lia | lia].
    + destruct (Nat.ltb_spec int_max_str_digits (List.length (group1 m)))
        as [Hd | Hd]; cbn [and_then].
      * split; [intros E0; inversion E0; auto|].
        intros [[_ [_ ->]] | [[[? | ?] _] | [[? | ?] _]]];
          (reflexivity || congruence || lia).
      * rewrite N.
        destruct (Z.ltb_spec maxsize (Z.max 0 (int_of_str (group1 m))))
          as [Hs | Hs];
          [|destruct (Z.ltb_spec list_capacity
                        (Z.max 0 (int_of_str (group1 m)))) as [Hc | Hc]].
        -- split; [intros E0; inversion E0; auto 10|].
           intros [[_ [? _]] | [[_ [_ ->]] | [_ [? _]]]];
             [lia | reflexivity | lia].
        -- split; [intros E0; inversion E0; auto 10|].
           intros [[_ [? _]] | [[_ [? _]] | [_ [_ [_ ->]]]]];
             [lia | lia | reflexivity].
        -- split; [discriminate|].
           intros [[_ [? _]] | [[_ [? _]] | [_ [_ [? _]]]]]; lia.
  - rewrite (years_found_none _ S). split; [discriminate|].
    intros [m [H _]]. discriminate.
Qed.

(** X9: text added before and after a query removes no state and no
    crop from what is extracted, provided lower-casing the whole is
    lower-casing the parts. *)
Theorem extraction_monotone {U : Unicode} (before query after name : str) :
  str_lower (before ++ query ++ after)
  = str_lower before ++ str_lower query ++ str_lower after ->
  (In name (extract_states query) ->
   In name (extract_states (before ++ query ++ after))) /\
  (In name (extract_crops query) ->
   In name (extract_crops (before ++ query ++ after))).
Proof.
  intros Hlower.
  assert (M : mentions query name = true ->
              mentions (before ++ query ++ after) name = true).
  { unfold mentions. rewrite !str_in_substring.
    intros [x [y E]]. rewrite Hlower, E.
    exists (str_lower before ++ x), (y ++ str_lower after).
    rewrite <- !app_assoc. reflexivity. }
  rewrite !extract_states_filter, !extract_crops_filter, !filter_In.
  tauto.
Qed.

Lemma extraction_monotone_witness :
  In (lit "Punjab")
    (extract_states (lit "Compare " ++ lit "Punjab" ++ lit " and Kerala")).
Proof.
  apply (proj1 (@extraction_monotone python_latin1 (lit "Compare ")
                  (lit "Punjab") (lit " and Kerala") (lit "Punjab")
                  eq_refl)).
  vm_compute. tauto.
Defined.


(** ** Citations and data sets *)

(** X10: whatever handler runs, every citation record of its result has
    a dataset, a source and a url, every resource identifier cited is one
    that [list_datasets] lists, and there are at most two records. *)
Theorem citations_are_listed (h : handler) (query : str)
    (states crops : list str) (years : list Z) :
  forallb well_formed_citation (citations (call h query states crops years))
  = true /\
  incl (List.map to_json
          (resource_ids (citations (call h query states crops years))))
       listed_ids /\
  (List.length (citations (call h query states crops years)) <= 2)%nat.
Proof.
  assert (L : listed_ids
              = [to_json (dataset "crop_production");
                 to_json (dataset "rainfall")]) by reflexivity.
  rewrite L. clear L.
  destruct h; cbn [call].
  - unfold handle_rainfall_comparison.
    destruct (List.length states <? 2);
      [|destruct (py_min years); [destruct (py_max years)|]];
      cbn [and_then]; (split; [reflexivity|]); (split; [|cbn; lia]);
      cbn; intros x Hx; simpl in *; tauto.
  - unfold handle_production_extremes.
    destruct (is_empty states || is_empty crops);
      [|destruct (if is_empty years then Return 2023%Z else py_max years)];
      cbn [and_then]; (split; [reflexivity|]); (split; [|cbn; lia]);
      cbn; intros x Hx; simpl in *; tauto.
  - unfold handle_production_query.
    destruct (is_empty years);
      [|destruct (py_min years); [destruct (py_max years)|]];
      cbn [and_then]; (split; [reflexivity|]); (split; [|cbn; lia]);
      cbn; intros x Hx; simpl in *; tauto.
  - unfold handle_general.
    (split; [reflexivity|]); (split; [|cbn; lia]);
      cbn; intros x Hx; simpl in *; tauto.
Qed.

(** ** The endpoints *)

(** Where [extract_years] returns, [answer_query] returns a result with
    an answer text, after two printed lines. *)
Lemma answer_query_answer {U : Unicode} {L : Limits} (query : str)
    (years : list Z) (w : World) :
  extract_years query = Return years ->
  exists (result : dict) (answer line1 line2 : str),
    answer_query query w
    = (Return result, {| stdout := stdout w ++ [line1; line2] |}) /\
    get (lit "answer") result = Some (VStr answer).
Proof.
  intros Hy. rewrite (answer_query_returned _ w Hy).
  destruct (extract_years_cons _ Hy) as [y [ys Hys]].
  destruct (@call_owner (dispatch (classify_query query)) query
              (extract_states query) (extract_crops query) years)
    as [d [a [Hd [Ha _]]]].
  { rewrite Hys. discriminate. }
  rewrite Hd. exists d, a. do 2 eexists.
  rewrite <- app_assoc. split; [reflexivity | exact Ha].
Qed.

(** X11: [health_check] answers 200 with the status "healthy" and the
    time it is given; [api_key_configured] is false exactly when the
    environment variable is set to the empty string, and true otherwise,
    an unset variable included. *)
Theorem health_check_key_flag (env : option str) (now : str) :
  status (health_check env now) = 200%Z /\
  field "status" (health_check env now) = Some (JStr (lit "healthy")) /\
  field "timestamp" (health_check env now) = Some (JStr now) /\
  (field "api_key_configured" (health_check env now) = Some (JBool false)
   <-> env = Some []) /\
  (field "api_key_configured" (health_check env now) = Some (JBool true)
   <-> env <> Some []).
Proof.
  split; [reflexivity|]. split; [reflexivity|]. split; [reflexivity|].
  destruct env as [[|c key]|]; cbn;
    intuition (try congruence; try discriminate).
Qed.

(** X12: for a body that is an object whose "query" is a non-empty
    string on which [extract_years] returns, [handle_query] answers 200
    with the query, the answer and the sources of [answer_query], its
    metadata or an empty object, and the time it is given; the output is
    that of [answer_query]. *)
Theorem handle_query_success {U : Unicode} {L : Limits}
    (d : list (str * json)) (text now : str) (years : list Z) (w : World) :
  jget (lit "query") d = Some (JStr text) -> text <> [] ->
  extract_years text = Return years ->
  exists (result : dict) (answer : str),
    fst (answer_query text w) = Return result /\
    get (lit "answer") result = Some (VStr answer) /\
    handle_query (JDict d) now w
    = ({| status := 200;
          payload := JDict [
            (lit "success", JBool true);
            (lit "query", JStr text);
            (lit "answer", JStr answer);
            (lit "sources", rendered "sources" (VList []) result);
            (lit "metadata", rendered "metadata" (VDict []) result);
            (lit "timestamp", JStr now) ] |},
       snd (answer_query text w)).
Proof.
  intros Hq Hne Hy.
  destruct (answer_query_answer _ w Hy)
    as [result [answer [line1 [line2 [Hr Ha]]]]].
  exists result, answer. rewrite Hr. cbn [fst snd].
  split; [reflexivity|]. split; [exact Ha|].
  unfold handle_query, query_attempt. rewrite Hq.
  assert (T : truthy (JStr text) = true)
    by (destruct text; [congruence | reflexivity]).
  rewrite T. cbn [negb]. rewrite Hr, Ha. unfold rendered.
  destruct (get (lit "sources") result), (get (lit "metadata") result);
    reflexivity.
Qed.

Lemma handle_query_success_witness :
  exists (result : dict) (answer : str),
    fst (answer_query (lit "rainfall in Kerala") {| stdout := [] |})
    = Return result /\
    get (lit "answer") result = Some (VStr answer) /\
    handle_query (JDict [(lit "query", JStr (lit "rainfall in Kerala"))])
      (lit "2024-01-01T00:00:00") {| stdout := [] |}
    = ({| status := 200;
          payload := JDict [
            (lit "success", JBool true);
            (lit "query", JStr (lit "rainfall in Kerala"));
            (lit "answer", JStr answer);
            (lit "sources", rendered "sources" (VList []) result);
            (lit "metadata", rendered "metadata" (VDict []) result);
            (lit "timestamp", JStr (lit "2024-01-01T00:00:00")) ] |},
       snd (answer_query (lit "rainfall in Kerala") {| stdout := [] |})).
Proof.
  apply (@handle_query_success python_latin1 cpython_64bit
           [(lit "query", JStr (lit "rainfall in Kerala"))]
           (lit "rainfall in Kerala") (lit "2024-01-01T00:00:00")
           [2020; 2021; 2022; 2023]%Z).
  - reflexivity.
  - discriminate.
  - vm_compute. reflexivity.
Defined.

(** The five ways [handle_query] ends. *)
Lemma handle_query_cases {U : Unicode} {L : Limits} (data : json) (now : str)
    (w : World) :
  (is_dict data = false /\
   handle_query data now w
   = (error_response (AttributeError (type_name data) (lit "get")),
      {| stdout := stdout w
                   ++ [lit "[ERROR] "
                       ++ str_of_error
                            (AttributeError (type_name data) (lit "get"))] |}))
  \/
  (exists d, data = JDict d /\ truthy (query_of d) = false /\
             handle_query data now w = (no_query_response, w))
  \/
  (exists d text years line1 line2,
     data = JDict d /\ query_of d = JStr text /\ text <> [] /\
     extract_years text = Return years /\
     status (fst (handle_query data now w)) = 200%Z /\
     field "success" (fst (handle_query data now w)) = Some (JBool true) /\
     stdout (snd (handle_query data now w)) = stdout w ++ [line1; line2])
  \/
  (exists d text e,
     data = JDict d /\ query_of d = JStr text /\ text <> [] /\
     extract_years text = Raise e /\
     handle_query data now w
     = (error_response (Builtin e),
        {| stdout := stdout w
                     ++ [lit "[ERROR] " ++ str_of_error (Builtin e)] |}))
  \/
  (exists d, data = JDict d /\ truthy (query_of d) = true /\
             is_str (query_of d) = false /\
             handle_query data now w
             = (error_response
                  (AttributeError (type_name (query_of d)) (lit "lower")),
                {| stdout := stdout w
                     ++ [lit "[ERROR] "
                         ++ str_of_error
                              (AttributeError (type_name (query_of d))
                                 (lit "lower"))] |})).
Proof.
  destruct data as [| b | z | s | l | d];
    try (left; split; reflexivity).
  right. unfold handle_query, query_attempt. fold (query_of d).
  destruct (truthy (query_of d)) eqn:T; cbn [negb].
  - right. destruct (query_of d) as [| b | z | text | l | d'] eqn:Q;
      try discriminate T;
      try (do 2 right; exists d; rewrite Q;
           split; [reflexivity|]; split; [exact T|];
           split; reflexivity).
    assert (Hne : text <> []) by (destruct text; [discriminate | discriminate]).
    destruct (extract_years text) as [years | e] eqn:Hy.
    + left. 
      destruct (answer_query_answer _ w Hy)
        as [result [answer [line1 [line2 [Hr Ha]]]]].
      exists d, text, years, line1, line2. rewrite Hr, Ha.
      repeat split; auto.
    + right. left. exists d, text, e.
      rewrite (answer_query_raised _ w Hy). repeat split; auto.
  - left. exists d. repeat split; auto.
Qed.

Ltac hq_clash :=
  repeat match goal with
         | H : exists _, _ |- _ => destruct H
         | H : _ /\ _ |- _ => destruct H
         | H : _ \/ _ |- _ => destruct H
         | H : JDict _ = JDict _ |- _ => injection H as H; subst
         end;
  subst;
  repeat match goal with
         | H : query_of ?d = _, H' : context [query_of ?d] |- _ =>
             rewrite H in H'
         end;
  repeat match goal with
         | H : JStr _ = JStr _ |- _ => injection H as H; subst
         end;
  cbn [is_dict is_str truthy negb] in *;
  try match goal with
      | H : ?t <> [] |- _ => destruct t; [congruence|]
      end;
  cbn [is_empty negb] in *;
  try discriminate; try congruence.

(** X13: the status of [handle_query] is 200 exactly for an object with
    a non-empty string query on which [extract_years] returns, 400
    exactly for an object whose query is missing or false in the sense of
    [bool], and 500 exactly for a body that is no object, a query that is
    true and no string, or a non-empty string query on which
    [extract_years] raises; [success] is true exactly with 200. *)
Theorem handle_query_status {U : Unicode} {L : Limits} (data : json)
    (now : str) (w : World) :
  (status (fst (handle_query data now w)) = 200%Z <->
   exists d text years,
     data = JDict d /\ query_of d = JStr text /\ text <> [] /\
     extract_years text = Return years) /\
  (status (fst (handle_query data now w)) = 400%Z <->
   exists d, data = JDict d /\ truthy (query_of d) = false) /\
  (status (fst (handle_query data now w)) = 500%Z <->
   is_dict data = false \/
   (exists d, data = JDict d /\ truthy (query_of d) = true /\
              is_str (query_of d) = false) \/
   (exists d text e,
      data = JDict d /\ query_of d = JStr text /\ text <> [] /\
      extract_years text = Raise e)) /\
  (field "success" (fst (handle_query data now w)) = Some (JBool true)
   <-> status (fst (handle_query data now w)) = 200%Z).
Proof.
  destruct (handle_query_cases data now w)
    as [[D H]
       | [[d [-> [T H]]]
         | [[d [text [years [l1 [l2 [-> [Q [N [Y [S [F O]]]]]]]]]]]
           | [[d [text [e [-> [Q [N [Y H]]]]]]]
             | [d [-> [T [I H]]]]]]]].
  - rewrite H. cbn [fst error_response status field payload].
    repeat split; intros; hq_clash; auto.
  - rewrite H. cbn [fst no_query_response status field payload].
    repeat split; intros; hq_clash; eauto.
  - rewrite S, F.
    repeat split; intros; hq_clash; eauto 10.
  - rewrite H. cbn [fst error_response status field payload].
    repeat split; intros; hq_clash; eauto 10.
  - rewrite H. cbn [fst error_response status field payload].
    repeat split; intros; hq_clash; eauto 10.
Qed.

(** X14: a missing query, [null], the empty string, 0, [false], an empty
    list and an empty object all give the 400 response "No query
    provided", and nothing is printed. *)
Theorem handle_query_no_query {U : Unicode} {L : Limits}
    (d : list (str * json)) (now : str) (w : World) :
  jget (lit "query") d = None \/
  jget (lit "query") d = Some JNull \/
  jget (lit "query") d = Some (JStr []) \/
  jget (lit "query") d = Some (JInt 0) \/
  jget (lit "query") d = Some (JBool false) \/
  jget (lit "query") d = Some (JList []) \/
  jget (lit "query") d = Some (JDict []) ->
  handle_query (JDict d) now w
  = ({| status := 400;
        payload := JDict [
          (lit "success", JBool false);
          (lit "error", JStr (lit "No query provided")) ] |}, w).
Proof.
  intros H. unfold handle_query, query_attempt.
  repeat (destruct H as [H | H]; [rewrite H; reflexivity|]).
  rewrite H. reflexivity.
Qed.

Lemma handle_query_no_query_witness :
  handle_query (JDict [(lit "question", JStr (lit "rainfall in Kerala"))])
    (lit "2024-01-01T00:00:00") {| stdout := [] |}
  = ({| status := 400;
        payload := JDict [
          (lit "success", JBool false);
          (lit "error", JStr (lit "No query provided")) ] |},
     {| stdout := [] |}).
Proof.
  apply (@handle_query_no_query python_latin1 cpython_64bit
           [(lit "question", JStr (lit "rainfall in Kerala"))]).
  left. reflexivity.
Defined.

(** X15: a 500 response of [handle_query] carries the text of the
    exception raised: of an [AttributeError] on [get] for a body that is
    no object, of one on [lower] for a query that is true and no string,
    and of what [extract_years] raises for a string query; that text is
    printed once after "[ERROR] ". *)
Theorem handle_query_error {U : Unicode} {L : Limits} (data : json)
    (now : str) (w : World) :
  status (fst (handle_query data now w)) = 500%Z ->
  exists message : str,
    (is_dict data = false /\
     message = lit "'" ++ type_name data
               ++ lit "' object has no attribute 'get'"
     \/
     (exists d, data = JDict d /\ truthy (query_of d) = true /\
                is_str (query_of d) = false /\
                message = lit "'" ++ type_name (query_of d)
                          ++ lit "' object has no attribute 'lower'")
     \/
     (exists d text e, data = JDict d /\ query_of d = JStr text /\
                       extract_years text = Raise e /\
                       message = str_of_error (Builtin e))) /\
    field "error" (fst (handle_query data now w)) = Some (JStr message) /\
    stdout (snd (handle_query data now w))
    = stdout w ++ [lit "[ERROR] " ++ message].
Proof.
  destruct (handle_query_cases data now w)
    as [[D H]
       | [[d [-> [T H]]]
         | [[d [text [years [l1 [l2 [-> [Q [N [Y [S [F O]]]]]]]]]]]
           | [[d [text [e [-> [Q [N [Y H]]]]]]]
             | [d [-> [T [I H]]]]]]]].
  - intros _. rewrite H. eexists.
    split; [left; split; [exact D | reflexivity]|]. split; reflexivity.
  - rewrite H. discriminate.
  - rewrite S. discriminate.
  - intros _. rewrite H. eexists.
    split; [right; right; exists d, text, e; auto|]. split; reflexivity.
  - intros _. rewrite H. eexists.
    split; [right; left; exists d; repeat split; auto|]. split; reflexivity.
Qed.

Lemma handle_query_error_witness :
  exists message : str,
    (is_dict JNull = false /\
     message = lit "'" ++ type_name JNull
               ++ lit "' object has no attribute 'get'"
     \/
     (exists d, JNull = JDict d /\ truthy (query_of d) = true /\
                is_str (query_of d) = false /\
                message = lit "'" ++ type_name (query_of d)
                          ++ lit "' object has no attribute 'lower'")
     \/
     (exists d text e, JNull = JDict d /\ query_of d = JStr text /\
                       extract_years text = Raise e /\
                       message = str_of_error (Builtin e))) /\
    field "error" (fst (handle_query JNull (lit "now") {| stdout := [] |}))
    = Some (JStr message) /\
    stdout (snd (handle_query JNull (lit "now") {| stdout := [] |}))
    = stdout {| stdout := [] |} ++ [lit "[ERROR] " ++ message].
Proof.
  apply (@handle_query_error python_latin1 cpython_64bit JNull (lit "now")
           {| stdout := [] |}).
  reflexivity.
Defined.

Example handle_query_error_runs :
  List.map (fun data =>
              field "error"
                (fst (handle_query data (lit "now") {| stdout := [] |})))
    [ JNull; JList []; JDict [(lit "query", JInt 5)];
      JDict [(lit "query", JBool true)];
      JDict [(lit "query", JList [JStr (lit "rainfall")])];
      JDict [(lit "query", JStr (lit "last 99999999999999999999 years"))] ]
  = List.map (fun s => Some (JStr (lit s)))
      [ "'NoneType' object has no attribute 'get'";
        "'list' object has no attribute 'get'";
        "'int' object has no attribute 'lower'";
        "'bool' object has no attribute 'lower'";
        "'list' object has no attribute 'lower'";
        "Python int too large to convert to C ssize_t" ]%string.
Proof. vm_compute. reflexivity. Qed.

(** X16: [handle_query] keeps what was printed before and prints two
    lines with a 200, nothing with a 400 and one line with a 500. *)
Theorem handle_query_output {U : Unicode} {L : Limits} (data : json)
    (now : str) (w : World) :
  exists printed : list str,
    stdout (snd (handle_query data now w)) = stdout w ++ printed /\
    (status (fst (handle_query data now w)) = 200%Z ->
     List.length printed = 2%nat) /\
    (status (fst (handle_query data now w)) = 400%Z -> printed = []) /\
    (status (fst (handle_query data now w)) = 500%Z ->
     List.length printed = 1%nat).
Proof.
  destruct (handle_query_cases data now w)
    as [[D H]
       | [[d [-> [T H]]]
         | [[d [text [years [l1 [l2 [-> [Q [N [Y [S [F O]]]]]]]]]]]
           | [[d [text [e [-> [Q [N [Y H]]]]]]]
             | [d [-> [T [I H]]]]]]]].
  - rewrite H. eexists. split; [reflexivity|].
    cbn [fst error_response status]. repeat split; (discriminate || reflexivity).
  - rewrite H. exists []. cbn [fst snd no_query_response status].
    rewrite app_nil_r. repeat split; (discriminate || reflexivity).
  - rewrite S, O. eexists. split; [reflexivity|].
    repeat split; (discriminate || reflexivity).
  - rewrite H. eexists. split; [reflexivity|].
    cbn [fst error_response status]. repeat split; (discriminate || reflexivity).
  - rewrite H. eexists. split; [reflexivity|].
    cbn [fst error_response status]. repeat split; (discriminate || reflexivity).
Qed.

Lemma strs_eqb_eq (a b : list str) : strs_eqb a b = true -> a = b.
Proof.
  revert b; induction a as [|x a IH]; intros [|y b]; simpl;
    try discriminate; [reflexivity|].
  intros H. apply andb_true_iff in H as [H1 H2].
  apply str_eqb_eq in H1. apply IH in H2. congruence.
Qed.

(** ** Latin-1 text *)

(** X17: a canonical state name, taken as a query, yields that state
    alone and no crop, and a canonical crop name that crop alone and no
    state: no canonical name holds another. *)
Theorem canonical_names_do_not_overlap :
  Forall (fun name => extract_states name = [name] /\ extract_crops name = [])
    STATES /\
  Forall (fun name => extract_crops name = [name] /\ extract_states name = [])
    CROPS.
Proof.
  split; apply Forall_forall; intros name H.
  - assert (E : forallb (fun n => strs_eqb (extract_states n) [n]
                                  && strs_eqb (extract_crops n) []) STATES
                = true) by (vm_compute; reflexivity).
    rewrite forallb_forall in E. apply E in H.
    apply andb_true_iff in H as [H1 H2].
    split; apply strs_eqb_eq; assumption.
  - assert (E : forallb (fun n => strs_eqb (extract_crops n) [n]
                                  && strs_eqb (extract_states n) []) CROPS
                = true) by (vm_compute; reflexivity).
    rewrite forallb_forall in E. apply E in H.
    apply andb_true_iff in H as [H1 H2].
    split; apply strs_eqb_eq; assumption.
Qed.

Lemma latin1_range_complete (c : N) : (c < 256)%N -> In c latin1_range.
Proof.
  intros H. unfold latin1_range. apply in_map_iff.
  exists (N.to_nat c). split; [apply N2Nat.id|]. apply in_seq. lia.
Qed.

Lemma latin1_lower_above (c : N) : (256 <= c)%N -> latin1_lower c = c.
Proof.
  intros H. unfold latin1_lower, in_range.
  destruct (N.leb_spec 65 c), (N.leb_spec c 90); cbn [andb]; try lia.
  destruct (N.leb_spec 192 c), (N.leb_spec c 222); cbn [andb]; try lia;
    reflexivity.
Qed.

(** A property of characters that holds below 256 by inspection and above
    because lower-casing leaves those characters alone. *)
Lemma latin1_lower_preserves (A : Type) (p : N -> A)
    (eqb : A -> A -> bool) :
  (forall x y, eqb x y = true -> x = y) ->
  forallb (fun c => eqb (p (latin1_lower c)) (p c)) latin1_range = true ->
  forall c : N, p (latin1_lower c) = p c.
Proof.
  intros Heqb Hall c. destruct (N.lt_ge_cases c 256) as [H | H].
  - rewrite forallb_forall in Hall. apply Heqb, Hall.
    apply latin1_range_complete, H.
  - rewrite latin1_lower_above by exact H. reflexivity.
Qed.

Lemma bool_eqb_eq (x y : bool) : Bool.eqb x y = true -> x = y.
Proof. apply Bool.eqb_prop. Qed.

Lemma N_eqb_eq' (x y : N) : N.eqb x y = true -> x = y.
Proof. apply N.eqb_eq. Qed.

Lemma latin1_lower_idempotent (c : N) :
  latin1_lower (latin1_lower c) = latin1_lower c.
Proof.
  apply (@latin1_lower_preserves _ latin1_lower N.eqb N_eqb_eq').
  vm_compute. reflexivity.
Qed.

Lemma latin1_lower_word (c : N) : is_word (latin1_lower c) = is_word c.
Proof.
  apply (@latin1_lower_preserves _ is_word Bool.eqb bool_eqb_eq).
  vm_compute. reflexivity.
Qed.

Lemma latin1_lower_atom (a : atom) (c : N) :
  In a (atoms_of year_re) ->
  atom_ok a (latin1_lower c) = atom_ok a c.
Proof.
  intros [<- | [<- | [<- | [<- | []]]]];
    apply (@latin1_lower_preserves _ (atom_ok _) Bool.eqb bool_eqb_eq);
    vm_compute; reflexivity.
Qed.

Lemma latin1_lower_digit (c : N) : is_digit c = true -> latin1_lower c = c.
Proof.
  cbn. unfold in_range, latin1_lower, in_range. intros H.
  apply andb_true_iff in H as [H1 H2]. apply N.leb_le in H1, H2.
  destruct (N.leb_spec 65 c), (N.leb_spec c 90); cbn [andb]; try lia.
  destruct (N.leb_spec 192 c), (N.leb_spec c 222); cbn [andb]; try lia;
    reflexivity.
Qed.

Section CharacterMap.
Context {U : Unicode}.
Variable f : N -> N.
Variable atoms : list atom.
Hypothesis f_word : forall c, is_word (f c) = is_word c.
Hypothesis f_atom :
  forall a c, In a atoms -> atom_ok a (f c) = atom_ok a c.

Lemma one_map (X : Type) (a : atom)
    (k k' : option N -> str -> nat -> option X) (s : str) (pos : nat) :
  In a atoms ->
  (forall p t n, k' (option_map f p) (List.map f t) n = k p t n) ->
  one a k' (List.map f s) pos = one a k s pos.
Proof.
  intros Ha Hk. destruct s as [|c s]; simpl; [reflexivity|].
  rewrite f_atom by exact Ha. destruct (atom_ok a c); [|reflexivity].
  apply (Hk (Some c)).
Qed.

Lemma many1_map (X : Type) (a : atom)
    (k k' : option N -> str -> nat -> option X) (s : str) :
  In a atoms ->
  (forall p t n, k' (option_map f p) (List.map f t) n = k p t n) ->
  forall prev pos,
    many1 a k' (option_map f prev) (List.map f s) pos = many1 a k prev s pos.
Proof.
  intros Ha Hk. induction s as [|c s IH]; intros prev pos; simpl;
    [reflexivity|].
  rewrite f_atom by exact Ha. destruct (atom_ok a c); [|reflexivity].
  rewrite (IH (Some c)). rewrite (Hk (Some c)). reflexivity.
Qed.

Lemma run_map (r : regex) :
  incl (atoms_of r) atoms ->
  forall prev s pos g,
    run r (option_map f prev) (List.map f s) pos g = run r prev s pos g.
Proof.
  induction r as [|n r IH]; intros Hr prev s pos g; [reflexivity|].
  destruct n as [a | a | a | | |]; cbn [run atoms_of] in *.
  - apply one_map; [apply Hr; left; reflexivity|].
    intros p t n. apply IH. intros x Hx. apply Hr. right. exact Hx.
  - apply many1_map; [apply Hr; left; reflexivity|].
    intros p t n. apply IH. intros x Hx. apply Hr. right. exact Hx.
  - rewrite (@one_map _ a (fun p t n => run r p t n g)
               (fun p t n => run r p t n g)).
    + rewrite IH; [reflexivity|]. intros x Hx. apply Hr. right. exact Hx.
    + apply Hr. left. reflexivity.
    + intros p t n. apply IH. intros x Hx. apply Hr. right. exact Hx.
  - assert (B : word_before (option_map f prev) = word_before prev)
      by (destruct prev; simpl; auto).
    assert (A : word_after (List.map f s) = word_after s)
      by (destruct s; simpl; auto).
    rewrite B, A, (IH Hr). reflexivity.
  - apply IH, Hr.
  - apply IH, Hr.
Qed.

Lemma slice_map (s : str) (i j : nat) :
  slice (List.map f s) i j = List.map f (slice s i j).
Proof. unfold slice. rewrite skipn_map, firstn_map. reflexivity. Qed.

Lemma findall_from_map (r : regex) (subject : str) :
  incl (atoms_of r) atoms ->
  forall s prev i skip,
    List.map group1
      (findall_from r (List.map f subject) (option_map f prev)
         (List.map f s) i skip)
    = List.map
        (fun m => List.map f
                    (slice subject (fst (m_span1 m)) (snd (m_span1 m))))
        (findall_from r subject prev s i skip).
Proof.
  intros Hr. induction s as [|c s IH]; intros prev i skip.
  - destruct skip; simpl; [|reflexivity].
    pose proof (@run_map r Hr prev [] i (i, i)) as R. simpl in R. rewrite R.
    destruct (run r prev [] i (i, i)) as [[e g]|]; [|reflexivity].
    simpl. unfold group1. cbn [m_string m_span1]. rewrite slice_map.
    reflexivity.
  - destruct skip; simpl; [|apply (IH (Some c))].
    pose proof (@run_map r Hr prev (c :: s) i (i, i)) as R. simpl in R.
    rewrite R.
    destruct (run r prev (c :: s) i (i, i)) as [[e g]|].
    + simpl. unfold group1 at 1. cbn [m_string m_span1].
      rewrite slice_map, (IH (Some c)). reflexivity.
    + apply (IH (Some c)).
Qed.
End CharacterMap.

Lemma latin1_str_lower_idempotent (s : str) :
  str_lower (str_lower s) = str_lower s.
Proof.
  cbn. rewrite map_map. apply map_ext. apply latin1_lower_idempotent.
Qed.

(** The explicit years of a text and of its lower-cased form are the
    same. *)
Lemma explicit_years_lower (query : str) :
  List.map int_of_str (re_findall year_re (str_lower query))
  = List.map int_of_str (re_findall year_re query).
Proof.
  unfold re_findall. change (str_lower query) with (List.map latin1_lower query).
  change (@None N) with (option_map latin1_lower None).
  rewrite (@findall_from_map python_latin1 latin1_lower (atoms_of year_re)
             latin1_lower_word latin1_lower_atom year_re query
             (incl_refl _)).
  rewrite !map_map. apply map_ext_in. intros m Hm. cbn [option_map] in Hm.
  assert (G : In (group1 m) (re_findall year_re query))
    by (unfold re_findall; apply in_map, Hm).
  apply re_findall_year_groups in G as [d1 [d2 [G [D1 D2]]]].
  apply (@findall_from_sound python_latin1 year_re query m query [] 0) in Hm;
    [|reflexivity].
  destruct Hm as [before [t [e [g [_ [_ ->]]]]]].
  unfold group1 in *. cbn [m_string m_span1] in *. rewrite G.
  cbn [List.map]. rewrite (@latin1_lower_digit d1 D1), (@latin1_lower_digit d2 D2).
  reflexivity.
Qed.

Lemma extract_years_lower {L : Limits} (query : str) :
  extract_years (str_lower query) = extract_years query.
Proof.
  unfold extract_years. f_equal.
  destruct (re_search last_re (str_lower query)) as [m|] eqn:S.
  - rewrite (years_found_last query S). apply years_found_last.
    rewrite latin1_str_lower_idempotent. exact S.
  - rewrite (years_found_none query S), <- explicit_years_lower.
    apply years_found_none. rewrite latin1_str_lower_idempotent. exact S.
Qed.

Lemma answer_query_lower {L : Limits} (query : str) (w : World) :
  fst (answer_query (str_lower query) w) = fst (answer_query query w).
Proof.
  assert (C : classify_query (str_lower query) = classify_query query).
  { unfold classify_query. rewrite latin1_str_lower_idempotent. reflexivity. }
  assert (S : extract_states (str_lower query) = extract_states query).
  { unfold extract_states. rewrite latin1_str_lower_idempotent. reflexivity. }
  assert (K : extract_crops (str_lower query) = extract_crops query).
  { unfold extract_crops. rewrite latin1_str_lower_idempotent. reflexivity. }
  pose proof (extract_years_lower query) as Y.
  destruct (extract_years query) as [years | e] eqn:Hy.
  - rewrite (answer_query_returned _ w Y), (answer_query_returned _ w Hy).
    cbn [fst]. rewrite C, S, K.
    destruct (dispatch (classify_query query)); reflexivity.
  - rewrite (answer_query_raised _ w Y), (answer_query_raised _ w Hy).
    reflexivity.
Qed.

(** X18: on text of code points below 256, two queries with the same
    lower-cased form get the same result from [answer_query], an
    exception included. *)
Theorem answer_query_case_insensitive {L : Limits} (query1 query2 : str)
    (w : World) :
  Forall (fun c => (c < 256)%N) query1 ->
  Forall (fun c => (c < 256)%N) query2 ->
  str_lower query1 = str_lower query2 ->
  fst (answer_query query1 w) = fst (answer_query query2 w).
Proof.
  intros _ _ E.
  rewrite <- (answer_query_lower query1), <- (answer_query_lower query2), E.
  reflexivity.
Qed.

Lemma answer_query_case_insensitive_witness :
  fst (answer_query (lit "COMPARE Rainfall in PUNJAB and kerala, 2021")
         {| stdout := [] |})
  = fst (answer_query (lit "compare rainfall in Punjab AND Kerala, 2021")
           {| stdout := [] |}).
Proof.
  apply (@answer_query_case_insensitive cpython_64bit).
  - repeat constructor.
  - repeat constructor.
  - vm_compute. reflexivity.
Defined.
